(** * Vibe Check API: the analysis pipeline of the Express server

    A shallow embedding of the request pipeline of the Vibe Check backend
    (URL normalisation, screenshot capture, critique call, sanitisation of
    the model's answer) and the properties its specification states.

    JavaScript values are modelled by [value]; own properties of an object
    are kept as an association list in property order.  A finite Number is
    modelled by the rational it denotes (every finite double is a
    rational; the sign of zero is not represented, and no function below
    can observe it).  Calls into the platform (the URL constructor,
    JSON.parse, Playwright, fetch) are taken from a [World]. *)

From Stdlib Require Import Bool List String Ascii ZArith QArith Qround Lia Lqa.
From Stdlib Require Import DecimalString.
Import ListNotations.
Local Open Scope string_scope.
Local Open Scope Z_scope.

(** ** JavaScript values *)

Inductive number : Type :=
| NaN
| PosInf
| NegInf
| Fin (q : Q).

#[warnings="-register-all"]
Inductive value : Type :=
| VUndefined
| VNull
| VBool (b : bool)
| VNum (n : number)
| VStr (s : string)
| VArr (items : list value)
| VObj (fields : list (string * value)).

Definition object : Type := list (string * value).

(** The integer-valued Number [n]. *)
Definition int (n : Z) : number := Fin (inject_Z n).

(** What a [throw] carries: an [Error] instance (Error, TypeError,
    SyntaxError, Playwright's errors) with its message, or any other value. *)
Inductive thrown : Type :=
| ErrorObj (message : string)
| NonError (v : value).

Definition result (A : Type) : Type := (thrown + A)%type.

Module Js.

(** Own property lookup, first binding of the key. *)
Fixpoint lookup (k : string) (o : object) : option value :=
  match o with
  | [] => None
  | (k', v) :: rest => if String.eqb k k' then Some v else lookup k rest
  end.

(** Property definition in an object literal: an existing key keeps its
    place and takes the new value, a new key goes last. *)
Fixpoint set (k : string) (v : value) (o : object) : object :=
  match o with
  | [] => [(k, v)]
  | (k', v') :: rest =>
      if String.eqb k k' then (k', v) :: rest else (k', v') :: set k v rest
  end.

Definition index_key (i : nat) : string :=
  NilZero.string_of_uint (Nat.to_uint i).

Fixpoint indexed {A : Type} (f : A -> value) (i : nat) (l : list A) : object :=
  match l with
  | [] => []
  | x :: rest => (index_key i, f x) :: indexed f (S i) rest
  end.

Definition char_value (c : ascii) : value := VStr (String c EmptyString).

(** Own enumerable properties, as the spread [{...v}] copies them:
    nothing for undefined, null, booleans and numbers, the indexed
    characters of a string, the indexed items of an array. *)
Definition own_entries (v : value) : object :=
  match v with
  | VStr s => indexed char_value 0 (list_ascii_of_string s)
  | VArr items => indexed (fun x => x) 0 items
  | VObj fields => fields
  | _ => []
  end.

Definition keys (o : object) : list string := map fst o.

Definition put (acc : object) (kv : string * value) : object :=
  set (fst kv) (snd kv) acc.

(** [{...v}]: the own properties of [v] defined one by one, in order,
    on a fresh object. *)
Definition spread (v : value) : object :=
  fold_left put (own_entries v) [].

Definition nullish (v : value) : bool :=
  match v with
  | VUndefined | VNull => true
  | _ => false
  end.

Definition type_name (v : value) : string :=
  match v with
  | VNull => "null"
  | _ => "undefined"
  end.

(** [v.k] for a key [k] that no built-in prototype defines (every key the
    program reads is one): the own property of an object, [undefined] on
    any other value, and a TypeError on undefined and null. *)
Definition get (v : value) (k : string) : result value :=
  match v with
  | VUndefined | VNull =>
      inl (ErrorObj ("Cannot read properties of " ++ type_name v
                       ++ " (reading '" ++ k ++ "')"))
  | VObj fields =>
      inr (match lookup k fields with Some x => x | None => VUndefined end)
  | _ => inr VUndefined
  end.

(** [v?.k] *)
Definition opt_get (v : value) (k : string) : value :=
  match get v k with
  | inl _ => VUndefined
  | inr x => x
  end.

(** [v?.[0]] *)
Definition opt_first (v : value) : value :=
  match v with
  | VArr items => hd VUndefined items
  | VStr (String c _) => char_value c
  | VObj fields =>
      match lookup "0" fields with Some x => x | None => VUndefined end
  | _ => VUndefined
  end.

(** [a ?? b] *)
Definition coalesce (a b : value) : value :=
  if nullish a then b else a.

Definition Number_isFinite (v : value) : bool :=
  match v with
  | VNum (Fin _) => true
  | _ => false
  end.

(** Math.round: the nearest integer, a tie going up. *)
Definition Math_round (n : number) : number :=
  match n with
  | Fin q => int (Qfloor (q + (1 # 2)))
  | _ => n
  end.

Definition Math_max (a b : number) : number :=
  match a, b with
  | NaN, _ | _, NaN => NaN
  | PosInf, _ | _, PosInf => PosInf
  | NegInf, x | x, NegInf => x
  | Fin x, Fin y => if Qle_bool x y then b else a
  end.

Definition Math_min (a b : number) : number :=
  match a, b with
  | NaN, _ | _, NaN => NaN
  | NegInf, _ | _, NegInf => NegInf
  | PosInf, x | x, PosInf => x
  | Fin x, Fin y => if Qle_bool x y then a else b
  end.

(** Boolean(v) *)
Definition Boolean (v : value) : bool :=
  match v with
  | VUndefined | VNull => false
  | VBool b => b
  | VNum NaN => false
  | VNum (Fin q) => negb (Qeq_bool q 0)
  | VNum _ => true
  | VStr s => negb (String.eqb s "")
  | VArr _ | VObj _ => true
  end.

Definition Array_isArray (v : value) : bool :=
  match v with
  | VArr _ => true
  | _ => false
  end.

Definition is_string (v : value) : bool :=
  match v with
  | VStr _ => true
  | _ => false
  end.

(** [items.slice(0, n)] *)
Definition slice0 (n : nat) (items : list value) : list value :=
  firstn n items.

End Js.

(** ** The sanitizer *)

Definition clampScore (v : value) : number :=
  match v with
  | VNum n =>
      if negb (Js.Number_isFinite v) then int 1
      else
        let rounded := Js.Math_round n in
        Js.Math_min (int 10) (Js.Math_max (int 1) rounded)
  | _ => int 1
  end.

Definition score_keys : list string :=
  ["palette"; "typography"; "layout"; "originality"; "overallVibe"].

(** The object literal built for [scores], given the value of
    [raw.scores]. *)
Definition clamped_scores (scores : value) : value :=
  VObj
    [("palette", VNum (clampScore (Js.opt_get scores "palette")));
     ("typography", VNum (clampScore (Js.opt_get scores "typography")));
     ("layout", VNum (clampScore (Js.opt_get scores "layout")));
     ("originality", VNum (clampScore (Js.opt_get scores "originality")));
     ("overallVibe", VNum (clampScore (Js.opt_get scores "overallVibe")))].

(** [Array.isArray(signals) ? signals.slice(0, 6) : []] *)
Definition first_six (signals : value) : value :=
  match signals with
  | VArr items => VArr (Js.slice0 6 items)
  | _ => VArr []
  end.

Definition sanitizeResult (raw : value) : result value :=
  match Js.get raw "scores" with
  | inl e => inl e
  | inr scores =>
      match Js.get raw "aiSlopDetected", Js.get raw "aiSlopSignals" with
      | inr detected, inr signals =>
          inr (VObj
                 (Js.set "aiSlopSignals" (first_six signals)
                    (Js.set "aiSlopDetected" (VBool (Js.Boolean detected))
                       (Js.set "scores" (clamped_scores scores)
                          (Js.spread raw)))))
      | inl e, _ | _, inl e => inl e
      end
  end.

(** ** Extraction of the JSON object from the model's text *)

Definition open_brace : ascii := "{"%char.
Definition close_brace : ascii := "}"%char.

(** The suffix of [s] that starts at its first opening brace. *)
Fixpoint from_first_open (s : string) : option string :=
  match s with
  | EmptyString => None
  | String c rest =>
      if Ascii.eqb c open_brace then Some s else from_first_open rest
  end.

(** The prefix of [s] that ends at its last closing brace. *)
Fixpoint through_last_close (s : string) : option string :=
  match s with
  | EmptyString => None
  | String c rest =>
      match through_last_close rest with
      | Some p => Some (String c p)
      | None => if Ascii.eqb c close_brace then Some (String c EmptyString) else None
      end
  end.

(** [content.match(/\{[\s\S]*\}/)]: the leftmost match starts at the
    first opening brace that a closing brace follows, and the greedy star
    runs to the last closing brace; [match[0]] is returned. *)
Definition match_object (content : string) : option string :=
  match from_first_open content with
  | None => None
  | Some suffix => through_last_close suffix
  end.

(** Whether the character occurs in the text. *)
Fixpoint occurs (c : ascii) (s : string) : bool :=
  match s with
  | EmptyString => false
  | String d rest => Ascii.eqb d c || occurs c rest
  end.

(** [pre ++ "{" ++ mid ++ "}" ++ post] *)
Definition braced (pre mid post : string) : string :=
  pre ++ String open_brace (mid ++ String close_brace post).

Definition no_json_message : string := "Model did not return JSON".

Section SafeParse.

(** JSON.parse, a SyntaxError when the text is not JSON. *)
Variable JSON_parse : string -> result value.

Definition safeParseJson (content : value) : result value :=
  match content with
  | VStr s =>
      match match_object s with
      | None => inl (ErrorObj no_json_message)
      | Some m =>
          match JSON_parse m with
          | inl e => inl e
          | inr parsed => sanitizeResult parsed
          end
      end
  | VUndefined | VNull =>
      inl (ErrorObj ("Cannot read properties of " ++ Js.type_name content
                       ++ " (reading 'match')"))
  | _ => inl (ErrorObj "content.match is not a function")
  end.

End SafeParse.

(** ** The platform: Playwright, fetch, the environment *)

Definition Buffer : Type := list Byte.byte.

Definition decimal (n : Z) : string := NilZero.string_of_int (Z.to_int n).

Record Request : Type := {
  endpoint : string;
  method : string;
  headers : list (string * string);
  payload : value            (* the argument of JSON.stringify *)
}.

Record Response : Type := {
  status : Z;
  text : result string;      (* what [response.text()] settles to *)
  json : result value        (* what [response.json()] settles to *)
}.

Definition ok (r : Response) : bool :=
  (200 <=? status r) && (status r <=? 299).

(** The calls the server makes into the platform, as a trace records them. *)
Inductive call : Type :=
| NewURL (input : string)
| Launch (headless : bool)
| NewPage (width height : Z) (deviceScaleFactor : Q)
| Goto (url : string) (waitUntil : string) (timeout : Z)
| WaitForTimeout (ms : Z)
| Evaluate (script : string)
| Screenshot (type : string) (fullPage : bool)
| PageClose
| BrowserClose
| Fetch (req : Request)
| ResponseText
| ResponseJson.

Record World : Type := {
  (** [process.env.OPENROUTER_API_KEY] *)
  env_OPENROUTER_API_KEY : option string;
  (** the text of the system prompt, a constant of the server *)
  ANALYSIS_PROMPT : string;
  (** [new URL(s).toString()], [None] when the constructor throws *)
  URL_toString : string -> option string;
  (** [JSON.parse] *)
  JSON_parse : string -> result value;
  (** [buffer.toString('base64')] *)
  base64 : Buffer -> string;
  (** whether a Playwright call rejects, given the calls made before it *)
  fault : list call -> call -> option thrown;
  (** what [document.body.scrollHeight] evaluates to *)
  scrollHeight : Z;
  (** the bytes [page.screenshot] resolves to *)
  png : Buffer;
  (** what [fetch] settles to *)
  fetch : Request -> result Response
}.

(** The server's view of the platform while a request runs: the calls made
    so far, oldest first, and the browser processes and pages left open. *)
Record State : Type := {
  trace : list call;
  browsers : nat;
  pages : nat
}.

Definition initial : State := {| trace := []; browsers := 0; pages := 0 |}.

Definition record (c : call) (st : State) : State :=
  {| trace := trace st ++ [c]; browsers := browsers st; pages := pages st |}.

(** What a call that succeeded does to the open handles;
    [browser.close()] closes the pages of the browser too. *)
Definition effect (c : call) (st : State) : State :=
  match c with
  | Launch _ =>
      {| trace := trace st; browsers := S (browsers st); pages := pages st |}
  | NewPage _ _ _ =>
      {| trace := trace st; browsers := browsers st; pages := S (pages st) |}
  | PageClose =>
      {| trace := trace st; browsers := browsers st; pages := pred (pages st) |}
  | BrowserClose =>
      {| trace := trace st; browsers := pred (browsers st); pages := 0 |}
  | _ => st
  end.

(** ** Computations that mutate the state and may throw *)

Definition M (A : Type) : Type := State -> State * result A.

Definition ret {A : Type} (a : A) : M A := fun st => (st, inr a).

Definition throw {A : Type} (e : thrown) : M A := fun st => (st, inl e).

Definition bind {A B : Type} (m : M A) (k : A -> M B) : M B :=
  fun st =>
    match m st with
    | (st', inl e) => (st', inl e)
    | (st', inr a) => k a st'
    end.

Definition lift {A : Type} (r : result A) : M A := fun st => (st, r).

(** [try { body } finally { cleanup }]: the cleanup always runs; when it
    throws, its exception replaces the completion of the body. *)
Definition try_finally {A : Type} (body : M A) (cleanup : M unit) : M A :=
  fun st =>
    match body st with
    | (st1, r) =>
        match cleanup st1 with
        | (st2, inl e) => (st2, inl e)
        | (st2, inr _) => (st2, r)
        end
    end.

(** [try { body } catch (error) { handler }] *)
Definition try_catch {A : Type} (body : M A) (handler : thrown -> M A) : M A :=
  fun st =>
    match body st with
    | (st1, inl e) => handler e st1
    | (st1, inr a) => (st1, inr a)
    end.

Declare Scope js_scope.
Delimit Scope js_scope with js.
Notation "x <- m ;; k" := (bind m (fun x => k))
  (at level 100, m at next level, right associativity) : js_scope.
Notation "m ;; k" := (bind m (fun _ => k))
  (at level 100, right associativity) : js_scope.
Local Open Scope js_scope.

Section Server.

Variable w : World.

(** An awaited Playwright call. *)
Definition await (c : call) : M unit :=
  fun st =>
    match fault w (trace st) c with
    | Some e => (record c st, inl e)
    | None => (effect c (record c st), inr tt)
    end.

(** A call that is recorded and cannot reject. *)
Definition note (c : call) : M unit :=
  fun st => (record c st, inr tt).

Definition step : Z := 800.

(** The values [y] takes in
    [for (let y = 0; y < scrollHeight; y += step)]. *)
Definition scroll_offsets (height : Z) : list Z :=
  map (fun i => step * Z.of_nat i)
      (seq 0 (Z.to_nat ((height + step - 1) / step))).

Fixpoint scroll_through (offsets : list Z) : M unit :=
  match offsets with
  | [] => ret tt
  | y :: rest =>
      await (Evaluate ("window.scrollTo(0, " ++ decimal y ++ ")")) ;;
      await (WaitForTimeout 200) ;;
      scroll_through rest
  end.

(** The [try] block of captureScreenshot. *)
Definition capture_page (targetUrl : string) : M Buffer :=
  await (Goto targetUrl "networkidle" 30000) ;;
  await (WaitForTimeout 600) ;;
  await (Evaluate "document.body.scrollHeight") ;;
  scroll_through (scroll_offsets (scrollHeight w)) ;;
  await (Evaluate "window.scrollTo(0, 0)") ;;
  await (WaitForTimeout 800) ;;
  await (Screenshot "png" true) ;;
  ret (png w).

(** Its [finally] block. *)
Definition release : M unit :=
  await PageClose ;;
  await BrowserClose.

Definition captureScreenshot (targetUrl : string) : M Buffer :=
  await (Launch true) ;;
  await (NewPage 1600 1000 (3 # 2)) ;;
  try_finally (capture_page targetUrl) release.

(** *** POST /api/analyze *)

Definition MODEL : string := "google/gemini-3-flash-preview".

Definition data_url (b64 : string) : string :=
  "data:image/png;base64," ++ b64.

Definition critique_request (key normalized b64 : string) : Request :=
  {| endpoint := "https://openrouter.ai/api/v1/chat/completions";
     method := "POST";
     headers :=
       [("Authorization", "Bearer " ++ key);
        ("Content-Type", "application/json");
        ("HTTP-Referer", "https://vibe-check.spaceynyc.dev");
        ("X-Title", "Vibe Check")];
     payload :=
       VObj
         [("model", VStr MODEL);
          ("max_tokens", VNum (int 1600));
          ("messages",
            VArr
              [VObj [("role", VStr "system");
                     ("content", VStr (ANALYSIS_PROMPT w))];
               VObj
                 [("role", VStr "user");
                  ("content",
                    VArr
                      [VObj
                         [("type", VStr "text");
                          ("text",
                            VStr ("Analyze this website screenshot for aesthetics and design quality. URL: "
                                    ++ normalized))];
                       VObj
                         [("type", VStr "image_url");
                          ("image_url",
                            VObj [("url", VStr (data_url b64))])]])]])] |}.

(** What the handler sends: [res.status(code).json(sent)]. *)
Record Reply : Type := {
  code : Z;
  sent : value
}.

Definition error_reply (c : Z) (message : string) : Reply :=
  {| code := c; sent := VObj [("error", VStr message)] |}.

(** [error instanceof Error ? error.message : 'Unexpected error'] *)
Definition describe (error : thrown) : string :=
  match error with
  | ErrorObj message => message
  | NonError _ => "Unexpected error"
  end.

(** [choices?.[0]?.message?.content ?? ''], given the value of
    [data.choices]. *)
Definition model_text (choices : value) : value :=
  Js.coalesce
    (Js.opt_get (Js.opt_get (Js.opt_first choices) "message") "content")
    (VStr "").

(** The body of the handler's [try] block. *)
Definition pipeline (key normalized : string) : M Reply :=
  screenshot <- captureScreenshot normalized ;;
  let b64 := base64 w screenshot in
  let req := critique_request key normalized b64 in
  note (Fetch req) ;;
  response <- lift (fetch w req) ;;
  if negb (ok response) then
    note ResponseText ;;
    err <- lift (text response) ;;
    throw (ErrorObj ("OpenRouter error " ++ decimal (status response)
                       ++ ": " ++ err))
  else
    note ResponseJson ;;
    data <- lift (json response) ;;
    choices <- lift (Js.get data "choices") ;;
    let text := model_text choices in
    analysis <- lift (safeParseJson (JSON_parse w) text) ;;
    ret {| code := 200;
           sent := VObj [("url", VStr normalized);
                         ("screenshotBase64", VStr (data_url b64));
                         ("analysis", analysis)] |}.

(** [url.startsWith('http') ? url : `https://${url}`] *)
Definition absolute (url : string) : string :=
  if String.prefix "http" url then url else "https://" ++ url.

(** [new URL(...).toString()], [None] when the constructor throws. *)
Definition normalize (url : string) : option string :=
  URL_toString w (absolute url).

(** The handler's [catch] block. *)
Definition on_error (error : thrown) : M Reply :=
  ret (error_reply 500 (describe error)).

(** [const { url } = req.body] *)
Definition destructure_url (req_body : value) : result value :=
  match req_body with
  | VUndefined | VNull =>
      inl (ErrorObj ("Cannot destructure property 'url' of 'req.body' as it is "
                       ++ Js.type_name req_body ++ "."))
  | _ => Js.get req_body "url"
  end.

(** [!OPENROUTER_API_KEY]: the variable is unset or empty. *)
Definition configured_key : option string :=
  match env_OPENROUTER_API_KEY w with
  | Some key => if String.eqb key "" then None else Some key
  | None => None
  end.

Definition analyze (req_body : value) : M Reply :=
  url <- lift (destructure_url req_body) ;;
  match url with
  | VStr s =>
      if negb (Js.Boolean url) then ret (error_reply 400 "url is required")
      else
        note (NewURL (absolute s)) ;;
        match normalize s with
        | None => ret (error_reply 400 "Invalid URL")
        | Some normalized =>
            match configured_key with
            | None =>
                ret (error_reply 500 "OPENROUTER_API_KEY is missing in environment")
            | Some key =>
                try_catch (pipeline key normalized) on_error
            end
        end
  | _ => ret (error_reply 400 "url is required")
  end.

End Server.

(** ** Vocabulary of the statements *)

Definition all_strings (items : list value) : Prop :=
  Forall (fun x => Js.is_string x = true) items.

(** The calls that open or close a handle. *)
Definition on_handle (c : call) : bool :=
  match c with
  | Launch _ | NewPage _ _ _ | PageClose | BrowserClose => true
  | _ => false
  end.

(** A computation that leaves the open handles as they are and only adds
    to the trace calls that are not on a handle. *)
Definition handle_neutral {A : Type} (m : M A) : Prop :=
  forall st,
    browsers (fst (m st)) = browsers st /\
    pages (fst (m st)) = pages st /\
    exists added,
      trace (fst (m st)) = (trace st ++ added)%list /\
      Forall (fun c => on_handle c = false) added.

(** No Playwright call rejects. *)
Definition quiet (w : World) : Prop :=
  forall history c, fault w history c = None.

(** The property is not there, or is null. *)
Definition missing (k : string) (o : object) : Prop :=
  Js.lookup k o = None \/ Js.lookup k o = Some VNull.

(** A body of the critique service that holds no text of the model: no
    [choices], no first choice, or a first choice without [message] or
    without [content] in it. *)
Inductive no_content : value -> Prop :=
| no_choices (fields : object) :
    missing "choices" fields ->
    no_content (VObj fields)
| no_first_choice (fields : object) :
    Js.lookup "choices" fields = Some (VArr []) ->
    no_content (VObj fields)
| null_choice (fields : object) (rest : list value) :
    Js.lookup "choices" fields = Some (VArr (VNull :: rest)) ->
    no_content (VObj fields)
| no_message (fields choice : object) (rest : list value) :
    Js.lookup "choices" fields = Some (VArr (VObj choice :: rest)) ->
    missing "message" choice ->
    no_content (VObj fields)
| no_message_content (fields choice message : object) (rest : list value) :
    Js.lookup "choices" fields = Some (VArr (VObj choice :: rest)) ->
    Js.lookup "message" choice = Some (VObj message) ->
    missing "content" message ->
    no_content (VObj fields).

(** The shape the sanitizer gives an analysis: an object whose [scores]
    are the five integers of [1,10], whose [aiSlopDetected] is a boolean
    and whose [aiSlopSignals] is a list of at most six entries. *)
Definition sanitized (analysis : value) : Prop :=
  exists fields,
    analysis = VObj fields /\
    (forall k, In k score_keys ->
       exists n, 1 <= n <= 10 /\
         Js.opt_get (Js.opt_get analysis "scores") k = VNum (int n)) /\
    (exists b, Js.lookup "aiSlopDetected" fields = Some (VBool b)) /\
    (exists items,
       Js.lookup "aiSlopSignals" fields = Some (VArr items) /\
       (List.length items <= 6)%nat).

(** The two shapes of a reply: the whole analysis (the URL, the
    screenshot and a sanitized analysis together), or an error message
    alone. *)
Inductive whole_or_error : Reply -> Prop :=
| whole (url shot : string) (analysis : value) :
    sanitized analysis ->
    whole_or_error
      {| code := 200;
         sent := VObj [("url", VStr url);
                       ("screenshotBase64", VStr shot);
                       ("analysis", analysis)] |}
| error_only (c : Z) (message : string) :
    c = 400 \/ c = 500 ->
    whole_or_error (error_reply c message).

(** A small world to run the server in. *)
Module Sample.

Definition parse (s : string) : result value :=
  if String.eqb s "{}" then inr (VObj [])
  else inl (ErrorObj "Unexpected token").

Definition url (s : string) : option string :=
  if occurs " "%char s then None else Some (s ++ "/").

Definition world (key : option string)
    (faults : list call -> call -> option thrown)
    (answer : result Response) : World :=
  {| env_OPENROUTER_API_KEY := key;
     ANALYSIS_PROMPT := "You are a ruthless but fair web design critic.";
     URL_toString := url;
     JSON_parse := parse;
     base64 := fun _ => "iVBORw==";
     fault := faults;
     scrollHeight := 1700;
     png := [Byte.x89; Byte.x50; Byte.x4e; Byte.x47];
     fetch := fun _ => answer |}.

Definition no_fault : list call -> call -> option thrown :=
  fun _ _ => None.

(** Page creation rejects. *)
Definition no_page : list call -> call -> option thrown :=
  fun _ c =>
    match c with
    | NewPage _ _ _ => Some (ErrorObj "browser has been closed")
    | _ => None
    end.

(** Navigation rejects. *)
Definition unreachable : list call -> call -> option thrown :=
  fun _ c =>
    match c with
    | Goto _ _ _ => Some (ErrorObj "net::ERR_NAME_NOT_RESOLVED")
    | _ => None
    end.

Definition answered (code : Z) (body : string) (data : value) : result Response :=
  inr {| status := code; text := inr body; json := inr data |}.

Definition request (u : string) : value := VObj [("url", VStr u)].

End Sample.

(** ** The page *)

(** [a <= b] on Numbers. *)
Definition number_le (a b : number) : bool :=
  match a, b with
  | NaN, _ | _, NaN => false
  | NegInf, _ => true
  | _, PosInf => true
  | Fin x, Fin y => Qle_bool x y
  | _, _ => false
  end.

Module Page.

Definition loadingLines : list string :=
  ["Calibrating design snobbery...";
   "Sniffing out template crimes...";
   "Consulting the brutalist council...";
   "Zooming in on questionable kerning..."].

Definition scoreClass (score : number) : string :=
  if number_le score (int 3) then "bg-rose-500 shadow-rose-500/30"
  else if number_le score (int 6) then "bg-amber-400 shadow-amber-400/30"
  else "bg-emerald-400 shadow-emerald-400/30".

Definition scoreTextClass (score : number) : string :=
  if number_le score (int 3) then "text-rose-300"
  else if number_le score (int 6) then "text-amber-200"
  else "text-emerald-300".

(** [loadingLines[Math.floor(now / 1000) % loadingLines.length]] for the
    integer [now] that [Date.now()] returns; [None] is [undefined].  The
    remainder has the sign of the dividend. *)
Definition loadingMessage (now : Z) : option string :=
  let index := Z.rem (now / 1000) (Z.of_nat (List.length loadingLines)) in
  if index <? 0 then None else nth_error loadingLines (Z.to_nat index).

(** The state of the component; in [result] and [error], [None] is
    null. *)
Record View : Type := {
  url : string;
  result : option value;
  error : option string;
  isLoading : bool;
  copied : bool
}.

Definition setResult (r : option value) (v : View) : View :=
  {| url := url v; result := r; error := error v;
     isLoading := isLoading v; copied := copied v |}.

Definition setError (e : option string) (v : View) : View :=
  {| url := url v; result := result v; error := e;
     isLoading := isLoading v; copied := copied v |}.

Definition setIsLoading (b : bool) (v : View) : View :=
  {| url := url v; result := result v; error := error v;
     isLoading := b; copied := copied v |}.

(** What the state [result] holds when it is set to a value. *)
Definition held (payload : value) : option value :=
  match payload with
  | VNull => None
  | _ => Some payload
  end.

(** The argument of [JSON.stringify] in the request of the page. *)
Definition submitted (v : View) : value := VObj [("url", VStr (url v))].

Section Submit.

(** The message of the TypeError that ['error' in payload] throws on a
    payload that is not an object, and [String(x)]. *)
Variable in_operator_message : value -> string.
Variable ToString : value -> string.

(** ['error' in payload] *)
Definition has_error (payload : value) : (thrown + bool)%type :=
  match payload with
  | VObj fields =>
      inr (match Js.lookup "error" fields with
           | Some _ => true
           | None => false
           end)
  | VArr _ => inr false
  | _ => inl (ErrorObj (in_operator_message payload))
  end.

(** The message of [new Error(x)]. *)
Definition Error_message (x : value) : string :=
  match x with
  | VUndefined => ""
  | VStr s => s
  | _ => ToString x
  end.

(** The [try] block of handleSubmit, given what [fetch] settles to: the
    payload it passes to [setResult], or what it throws. *)
Definition requested (answer : thrown + Response) : (thrown + value)%type :=
  match answer with
  | inl e => inl e
  | inr response =>
      match json response with
      | inl e => inl e
      | inr payload =>
          if negb (ok response) then
            match has_error payload with
            | inl e => inl e
            | inr true =>
                match Js.get payload "error" with
                | inl e => inl e
                | inr x => inl (ErrorObj (Error_message x))
                end
            | inr false => inl (ErrorObj "Failed to analyze")
            end
          else inr payload
      end
  end.

(** The state of the component when handleSubmit has run;
    [setResult(payload)] with the payload null is the cleared state. *)
Definition handleSubmit (answer : thrown + Response) (v : View) : View :=
  let v := setError None v in
  let v := setResult None v in
  let v := setIsLoading true v in
  let v :=
    match requested answer with
    | inr payload => setResult (held payload) v
    | inl err => setError (Some (describe err)) v
    end in
  setIsLoading false v.

End Submit.

End Page.

(** ** Vocabulary of the further statements *)

(** The calls of the scroll sweep over the offsets. *)
Definition sweep_calls (offsets : list Z) : list call :=
  flat_map
    (fun y => [Evaluate ("window.scrollTo(0, " ++ decimal y ++ ")");
               WaitForTimeout 200])
    offsets.

(** The calls of the [try] block of captureScreenshot when none rejects. *)
Definition page_calls (w : World) (targetUrl : string) : list call :=
  ([Goto targetUrl "networkidle" 30000;
    WaitForTimeout 600;
    Evaluate "document.body.scrollHeight"]
   ++ sweep_calls (scroll_offsets (scrollHeight w))
   ++ [Evaluate "window.scrollTo(0, 0)";
       WaitForTimeout 800;
       Screenshot "png" true])%list.

(** The calls of captureScreenshot when none rejects. *)
Definition capture_calls (w : World) (targetUrl : string) : list call :=
  ([Launch true; NewPage 1600 1000 (3 # 2)]
   ++ page_calls w targetUrl
   ++ [PageClose; BrowserClose])%list.

(** The state with further calls in its trace. *)
Definition extended (st : State) (calls : list call) : State :=
  {| trace := trace st ++ calls; browsers := browsers st; pages := pages st |}.

Definition is_launch (c : call) : bool :=
  match c with
  | Launch _ => true
  | _ => false
  end.

Definition is_fetch (c : call) : bool :=
  match c with
  | Fetch _ => true
  | _ => false
  end.

Definition is_new_url (c : call) : bool :=
  match c with
  | NewURL _ => true
  | _ => false
  end.

(** How many calls of the trace satisfy [f]. *)
Definition count (f : call -> bool) (calls : list call) : nat :=
  List.length (filter f calls).

(** The calls of Playwright that come after the launch. *)
Definition after_launch (c : call) : bool :=
  match c with
  | NewPage _ _ _ | Goto _ _ _ | WaitForTimeout _ | Evaluate _
  | Screenshot _ _ | PageClose | BrowserClose => true
  | _ => false
  end.

(** A computation that adds to the trace, on every path, only calls that
    satisfy [f]. *)
Definition adds_only {A : Type} (f : call -> bool) (m : M A) : Prop :=
  forall st,
    exists added,
      trace (fst (m st)) = (trace st ++ added)%list /\
      Forall (fun c => f c = true) added.

(** What follows the request to the critique service in a trace. *)
Definition after_fetch (rest : list call) : Prop :=
  rest = [] \/ rest = [ResponseText] \/ rest = [ResponseJson].

(** The values that [Boolean] sends to [false]. *)
Definition falsy (v : value) : Prop :=
  v = VUndefined \/ v = VNull \/ v = VBool false \/ v = VNum NaN \/
  (exists q, v = VNum (Fin q) /\ (q == 0)%Q) \/ v = VStr "".

(** * Properties *)

(** ** Objects as property lists *)

Module JsFacts.
Import Js.

Lemma lookup_set (k k' : string) (v : value) (o : object) :
  lookup k (set k' v o) = if String.eqb k k' then Some v else lookup k o.
Proof.
  induction o as [|[k0 v0] rest IH]; simpl.
  - destruct (String.eqb k k'); reflexivity.
  - destruct (String.eqb k' k0) eqn:E0; simpl.
    + apply String.eqb_eq in E0; subst k0.
      destruct (String.eqb k k'); reflexivity.
    + destruct (String.eqb k k0) eqn:E1.
      * apply String.eqb_eq in E1; subst k0.
        rewrite String.eqb_sym in E0. now rewrite E0.
      * exact IH.
Qed.

Lemma set_same (k : string) (v : value) (o : object) :
  lookup k o = Some v -> set k v o = o.
Proof.
  induction o as [|[k0 v0] rest IH]; simpl; [discriminate|].
  destruct (String.eqb k k0) eqn:E.
  - intros [= ->]. reflexivity.
  - intros H. now rewrite IH.
Qed.

Lemma set_fresh (k : string) (v : value) (o : object) :
  ~ In k (keys o) -> set k v o = (o ++ [(k, v)])%list.
Proof.
  induction o as [|[k0 v0] rest IH]; simpl; [reflexivity|].
  intros H. destruct (String.eqb k k0) eqn:E.
  - apply String.eqb_eq in E. subst. exfalso. apply H. now left.
  - rewrite IH; [reflexivity|]. intros Hin. apply H. now right.
Qed.

Lemma keys_set (k : string) (v : value) (o : object) :
  keys (set k v o) = if in_dec string_dec k (keys o) then keys o
                     else (keys o ++ [k])%list.
Proof.
  induction o as [|[k0 v0] rest IH]; simpl; [reflexivity|].
  destruct (String.eqb k k0) eqn:E; simpl.
  - apply String.eqb_eq in E. subst k0.
    destruct (string_dec k k) as [E|N]; [reflexivity|exfalso; now apply N].
  - apply String.eqb_neq in E.
    destruct (string_dec k0 k) as [E0|N0]; [exfalso; now apply E|].
    unfold keys in *. rewrite IH.
    destruct (in_dec string_dec k (map fst rest)); reflexivity.
Qed.

Lemma NoDup_keys_set (k : string) (v : value) (o : object) :
  NoDup (keys o) -> NoDup (keys (set k v o)).
Proof.
  intros H. rewrite keys_set.
  destruct (in_dec string_dec k (keys o)) as [|N]; [exact H|].
  apply NoDup_app; [exact H | repeat constructor; intros [] | ].
  intros x Hx [<-|[]]. exact (N Hx).
Qed.

Lemma NoDup_keys_fold (l acc : object) :
  NoDup (keys acc) -> NoDup (keys (fold_left put l acc)).
Proof.
  revert acc. induction l as [|[k v] rest IH]; intros acc H; simpl.
  - exact H.
  - apply IH. now apply NoDup_keys_set.
Qed.

Lemma NoDup_keys_spread (v : value) : NoDup (keys (spread v)).
Proof. apply (NoDup_keys_fold (own_entries v) []). constructor. Qed.

Lemma fold_put_distinct (l acc : object) :
  NoDup (keys (acc ++ l)%list) -> fold_left put l acc = (acc ++ l)%list.
Proof.
  revert acc. induction l as [|[k v] rest IH]; intros acc H; simpl.
  - now rewrite app_nil_r.
  - unfold put at 2. simpl. rewrite set_fresh.
    + rewrite IH; rewrite <- app_assoc; [reflexivity | exact H].
    + unfold keys in H. rewrite map_app in H. simpl in H.
      apply NoDup_remove_2 in H. intros Hin. apply H.
      apply in_or_app. now left.
Qed.

(** Spreading an object whose keys are distinct copies it as it is. *)
Lemma spread_object (o : object) :
  NoDup (keys o) -> spread (VObj o) = o.
Proof. intros H. apply (fold_put_distinct o []). exact H. Qed.

Lemma Math_max_int (a b : Z) : Math_max (int a) (int b) = int (Z.max a b).
Proof.
  unfold Math_max, int, Qle_bool, inject_Z. cbn [Qnum Qden].
  rewrite !Z.mul_1_r. destruct (Z.leb_spec a b).
  - now rewrite Z.max_r.
  - rewrite Z.max_l; [reflexivity | lia].
Qed.

Lemma Math_min_int (a b : Z) : Math_min (int a) (int b) = int (Z.min a b).
Proof.
  unfold Math_min, int, Qle_bool, inject_Z. cbn [Qnum Qden].
  rewrite !Z.mul_1_r. destruct (Z.leb_spec a b).
  - now rewrite Z.min_l.
  - rewrite Z.min_r; [reflexivity | lia].
Qed.

Lemma floor_half_up (n : Z) : Qfloor (inject_Z n + (1 # 2)) = n.
Proof.
  unfold Qfloor, Qplus, inject_Z. simpl.
  replace (n * 2 + 1) with (1 + n * 2) by lia.
  rewrite Z.div_add by lia. reflexivity.
Qed.

Lemma round_int (n : Z) : Math_round (int n) = int n.
Proof. unfold Math_round, int. now rewrite floor_half_up. Qed.

End JsFacts.

(** ** clampScore *)

Lemma clampScore_finite (q : Q) :
  clampScore (VNum (Fin q)) = int (Z.min 10 (Z.max 1 (Qfloor (q + (1 # 2))))).
Proof.
  unfold clampScore. cbn [Js.Number_isFinite negb Js.Math_round].
  now rewrite JsFacts.Math_max_int, JsFacts.Math_min_int.
Qed.

Lemma clampScore_not_finite (v : value) :
  Js.Number_isFinite v = false -> clampScore v = int 1.
Proof.
  destruct v as [| | |[| | |q]| | |]; simpl; intros H;
    try reflexivity; discriminate.
Qed.

Lemma clampScore_range (v : value) :
  exists n, clampScore v = int n /\ 1 <= n <= 10.
Proof.
  destruct (Js.Number_isFinite v) eqn:E.
  - destruct v as [| | |[| | |q]| | |]; try discriminate.
    rewrite clampScore_finite. eexists; split; [reflexivity | lia].
  - exists 1. split; [now apply clampScore_not_finite | lia].
Qed.

Lemma clampScore_int (n : Z) :
  1 <= n <= 10 -> clampScore (VNum (int n)) = int n.
Proof.
  intros H. unfold int at 1.
  rewrite clampScore_finite, JsFacts.floor_half_up. f_equal. lia.
Qed.

Lemma clampScore_idempotent (v : value) :
  clampScore (VNum (clampScore v)) = clampScore v.
Proof.
  destruct (clampScore_range v) as (n & -> & H). now apply clampScore_int.
Qed.

(** A finite score is sent to the nearest integer, a tie going up, and the
    integer is brought into the range. *)
Lemma clampScore_nearest (q : Q) (n : Z) :
  clampScore (VNum (Fin q)) = int n ->
  ((q < 3 # 2)%Q -> n = 1) /\
  ((19 # 2 <= q)%Q -> n = 10) /\
  ((3 # 2 <= q)%Q -> (q < 19 # 2)%Q ->
   (inject_Z n - (1 # 2) <= q)%Q /\ (q < inject_Z n + (1 # 2))%Q).
Proof.
  rewrite clampScore_finite.
  pose proof (Qfloor_le (q + (1 # 2))) as Hlo.
  pose proof (Qlt_floor (q + (1 # 2))) as Hhi.
  remember (Qfloor (q + (1 # 2))) as r eqn:Er. clear Er.
  rewrite inject_Z_plus in Hhi. change (inject_Z 1) with 1%Q in Hhi.
  unfold int. intros [= <-].
  split; [|split].
  - intros H. assert (inject_Z r < 2)%Q as L by lra.
    change 2%Q with (inject_Z 2) in L. rewrite <- Zlt_Qlt in L. lia.
  - intros H. assert (9 < inject_Z r)%Q as L by lra.
    change 9%Q with (inject_Z 9) in L. rewrite <- Zlt_Qlt in L. lia.
  - intros H1 H2.
    assert (1 < inject_Z r)%Q as L1 by lra.
    assert (inject_Z r < 10)%Q as L2 by lra.
    change 1%Q with (inject_Z 1) in L1. change 10%Q with (inject_Z 10) in L2.
    rewrite <- Zlt_Qlt in L1, L2.
    replace (Z.min 10 (Z.max 1 r)) with r by lia. split; lra.
Qed.

(** ** sanitizeResult *)

Lemma get_defined (raw : value) (k : string) :
  Js.nullish raw = false -> Js.get raw k = inr (Js.opt_get raw k).
Proof. destruct raw; simpl; intros H; try discriminate; reflexivity. Qed.

(** On every value but undefined and null the sanitizer returns an object:
    the copy of the input with the three sanitized properties defined. *)
Lemma sanitizeResult_defined (raw : value) :
  Js.nullish raw = false ->
  sanitizeResult raw =
  inr (VObj
         (Js.set "aiSlopSignals" (first_six (Js.opt_get raw "aiSlopSignals"))
            (Js.set "aiSlopDetected"
               (VBool (Js.Boolean (Js.opt_get raw "aiSlopDetected")))
               (Js.set "scores" (clamped_scores (Js.opt_get raw "scores"))
                  (Js.spread raw))))).
Proof.
  intros H. unfold sanitizeResult. now rewrite !get_defined by exact H.
Qed.

Lemma sanitizeResult_nullish (raw : value) :
  Js.nullish raw = true -> exists e, sanitizeResult raw = inl (ErrorObj e).
Proof.
  destruct raw; simpl; intros H; try discriminate; eexists; reflexivity.
Qed.

Lemma clamped_scores_fixed (scores : value) :
  clamped_scores (clamped_scores scores) = clamped_scores scores.
Proof.
  unfold clamped_scores.
  remember (clampScore (Js.opt_get scores "palette")) as a1 eqn:E1.
  remember (clampScore (Js.opt_get scores "typography")) as a2 eqn:E2.
  remember (clampScore (Js.opt_get scores "layout")) as a3 eqn:E3.
  remember (clampScore (Js.opt_get scores "originality")) as a4 eqn:E4.
  remember (clampScore (Js.opt_get scores "overallVibe")) as a5 eqn:E5.
  cbv [Js.opt_get Js.get Js.lookup String.eqb Ascii.eqb Bool.eqb].
  subst. now rewrite !clampScore_idempotent.
Qed.

Lemma first_six_fixed (signals : value) :
  first_six (first_six signals) = first_six signals.
Proof.
  destruct signals; try reflexivity. unfold first_six, Js.slice0.
  now rewrite firstn_firstn.
Qed.

Lemma first_six_length (signals : value) :
  exists items, first_six signals = VArr items /\ (List.length items <= 6)%nat.
Proof.
  destruct signals; try (exists []; split; [reflexivity | simpl; lia]).
  eexists. split; [reflexivity|]. apply firstn_le_length.
Qed.

Section Sanitized.
Import Js JsFacts.

Variables (sc det sig : value) (o : object).

Let out : object :=
  set "aiSlopSignals" sig (set "aiSlopDetected" det (set "scores" sc o)).

Lemma sanitized_scores : lookup "scores" out = Some sc.
Proof. unfold out. now rewrite !lookup_set. Qed.

Lemma sanitized_detected : lookup "aiSlopDetected" out = Some det.
Proof. unfold out. now rewrite !lookup_set. Qed.

Lemma sanitized_signals : lookup "aiSlopSignals" out = Some sig.
Proof. unfold out. now rewrite !lookup_set. Qed.

Lemma sanitized_other (k : string) :
  k <> "scores" -> k <> "aiSlopDetected" -> k <> "aiSlopSignals" ->
  lookup k out = lookup k o.
Proof.
  intros H1 H2 H3. unfold out. rewrite !lookup_set.
  apply String.eqb_neq in H1, H2, H3. now rewrite H1, H2, H3.
Qed.

Lemma sanitized_NoDup : NoDup (keys o) -> NoDup (keys out).
Proof. intros H. unfold out. now repeat apply NoDup_keys_set. Qed.

Lemma sanitized_again :
  set "aiSlopSignals" sig (set "aiSlopDetected" det (set "scores" sc out))
  = out.
Proof.
  rewrite (set_same "scores" sc out sanitized_scores).
  rewrite (set_same "aiSlopDetected" det out sanitized_detected).
  apply set_same, sanitized_signals.
Qed.

End Sanitized.

Lemma sanitizeResult_fixed (raw out : value) :
  sanitizeResult raw = inr out -> sanitizeResult out = inr out.
Proof.
  destruct (Js.nullish raw) eqn:N.
  - destruct (sanitizeResult_nullish raw N) as [e ->]. discriminate.
  - rewrite (sanitizeResult_defined raw N). intros [= <-].
    rewrite sanitizeResult_defined by reflexivity.
    unfold Js.opt_get, Js.get.
    rewrite sanitized_scores, sanitized_detected, sanitized_signals.
    rewrite clamped_scores_fixed, first_six_fixed. cbn [Js.Boolean].
    rewrite JsFacts.spread_object
      by (apply sanitized_NoDup, JsFacts.NoDup_keys_spread).
    now rewrite sanitized_again.
Qed.

(** The shape of what the sanitizer returns. *)
Lemma sanitizeResult_shape (raw out : value) :
  sanitizeResult raw = inr out -> sanitized out.
Proof.
  destruct (Js.nullish raw) eqn:N.
  - destruct (sanitizeResult_nullish raw N) as [e ->]. discriminate.
  - rewrite (sanitizeResult_defined raw N). intros [= <-].
    eexists. split; [reflexivity|]. split; [|split].
    + intros k Hk. unfold Js.opt_get at 2. unfold Js.get.
      rewrite sanitized_scores. unfold clamped_scores.
      set (scores := Js.opt_get raw "scores").
      destruct (clampScore_range (Js.opt_get scores "palette"))
        as (n1 & -> & R1).
      destruct (clampScore_range (Js.opt_get scores "typography"))
        as (n2 & -> & R2).
      destruct (clampScore_range (Js.opt_get scores "layout"))
        as (n3 & -> & R3).
      destruct (clampScore_range (Js.opt_get scores "originality"))
        as (n4 & -> & R4).
      destruct (clampScore_range (Js.opt_get scores "overallVibe"))
        as (n5 & -> & R5).
      destruct Hk as [<-|[<-|[<-|[<-|[<-|[]]]]]];
        eexists; (split; [|reflexivity]); assumption.
    + eexists. apply sanitized_detected.
    + destruct (first_six_length (Js.opt_get raw "aiSlopSignals"))
        as (items & E & L).
      exists items. split; [|exact L]. rewrite sanitized_signals.
      now f_equal.
Qed.

(** What safeParseJson returns came out of the sanitizer. *)
Lemma safeParseJson_inv (parse : string -> result value) (v a : value) :
  safeParseJson parse v = inr a -> exists raw, sanitizeResult raw = inr a.
Proof.
  unfold safeParseJson. destruct v; try discriminate.
  destruct (match_object s); [|discriminate].
  destruct (parse s0) as [e|raw]; [discriminate|]. intros H. now exists raw.
Qed.

(** ** Claims on the sanitizer *)

(** C1: for every input value, clampScore returns an integer of [1,10]
    obtained by rounding (to the nearest integer, then into the range); a
    value that is absent or not a finite number gives 1; NaN and 0 give 1,
    11 gives 10 and 7.6 gives 8 (as the rational 7.6 and as the double that
    the literal denotes); and sanitizeResult defines [scores] as the object
    of the five categories, each the clampScore of the input's score. *)
Theorem clampScore_sanitized_scores :
  (forall v, exists n,
      clampScore v = int n /\ 1 <= n <= 10 /\
      (Js.Number_isFinite v = false -> n = 1) /\
      (forall q, v = VNum (Fin q) ->
         ((q < 3 # 2)%Q -> n = 1) /\
         ((19 # 2 <= q)%Q -> n = 10) /\
         ((3 # 2 <= q)%Q -> (q < 19 # 2)%Q ->
          (inject_Z n - (1 # 2) <= q)%Q /\ (q < inject_Z n + (1 # 2))%Q))) /\
  clampScore (VNum NaN) = int 1 /\
  clampScore VUndefined = int 1 /\
  clampScore (VStr "7") = int 1 /\
  clampScore (VNum (Fin 0)) = int 1 /\
  clampScore (VNum (Fin 11)) = int 10 /\
  clampScore (VNum (Fin (76 # 10))) = int 8 /\
  clampScore (VNum (Fin (8556839292003942 # 1125899906842624))) = int 8 /\
  (forall raw, Js.nullish raw = false ->
     exists out scores,
       sanitizeResult raw = inr (VObj out) /\
       Js.lookup "scores" out = Some (VObj scores) /\
       Js.keys scores = score_keys /\
       forall k, In k score_keys ->
         Js.lookup k scores =
         Some (VNum (clampScore (Js.opt_get (Js.opt_get raw "scores") k)))).
Proof.
  split; [|repeat split; try reflexivity].
  - intros v. destruct (clampScore_range v) as (n & E & R).
    exists n. split; [exact E|]. split; [exact R|]. split.
    + intros H. rewrite (clampScore_not_finite v H) in E.
      unfold int in E. now injection E.
    + intros q ->. now apply clampScore_nearest.
  - intros raw N. rewrite (sanitizeResult_defined raw N).
    eexists. eexists. split; [reflexivity|].
    split; [apply sanitized_scores|]. split; [reflexivity|].
    intros k [<-|[<-|[<-|[<-|[<-|[]]]]]]; reflexivity.
Qed.

Lemma clampScore_sanitized_scores_witness :
  exists n, clampScore (VNum (Fin (76 # 10))) = int n /\ n = 8.
Proof.
  destruct (proj1 clampScore_sanitized_scores (VNum (Fin (76 # 10))))
    as (n & E & _ & _ & R).
  exists n. split; [exact E|].
  destruct (R (76 # 10) eq_refl) as (_ & _ & Near).
  destruct Near as [Lo Hi]; [unfold Qle; simpl; lia | unfold Qlt; simpl; lia |].
  assert (7 < inject_Z n)%Q as L1 by lra.
  assert (inject_Z n < 9)%Q as L2 by lra.
  change 7%Q with (inject_Z 7) in L1. change 9%Q with (inject_Z 9) in L2.
  rewrite <- Zlt_Qlt in L1, L2. lia.
Defined.

(** Scenario D of the specification: a score of 99 becomes 10 and a score
    that is a string becomes 1. *)
Example sanitize_out_of_range :
  sanitizeResult
    (VObj [("scores", VObj [("palette", VNum (int 99));
                            ("typography", VStr "bad")])])
  = inr (VObj [("scores", VObj [("palette", VNum (int 10));
                                ("typography", VNum (int 1));
                                ("layout", VNum (int 1));
                                ("originality", VNum (int 1));
                                ("overallVibe", VNum (int 1))]);
               ("aiSlopDetected", VBool false);
               ("aiSlopSignals", VArr [])]).
Proof. reflexivity. Qed.

(** C2, as the code has it: the sanitized [aiSlopSignals] is a list of at
    most 6 entries, the first entries of the input list in their order,
    each kept as it is (so strings when the input holds strings); it is
    the empty list when the input property is absent or not a list. *)
Theorem sanitized_signals_prefix (raw : value) :
  Js.nullish raw = false ->
  exists out signals,
    sanitizeResult raw = inr (VObj out) /\
    Js.lookup "aiSlopSignals" out = Some (VArr signals) /\
    (List.length signals <= 6)%nat /\
    (forall items, Js.opt_get raw "aiSlopSignals" = VArr items ->
       signals = firstn 6 items /\
       (exists rest, items = (signals ++ rest)%list) /\
       ((List.length items <= 6)%nat -> signals = items) /\
       (all_strings items -> all_strings signals)) /\
    (Js.Array_isArray (Js.opt_get raw "aiSlopSignals") = false ->
     signals = []).
Proof.
  intros N. rewrite (sanitizeResult_defined raw N).
  destruct (first_six_length (Js.opt_get raw "aiSlopSignals"))
    as (signals & E & L).
  exists (Js.set "aiSlopSignals" (first_six (Js.opt_get raw "aiSlopSignals"))
            (Js.set "aiSlopDetected"
               (VBool (Js.Boolean (Js.opt_get raw "aiSlopDetected")))
               (Js.set "scores" (clamped_scores (Js.opt_get raw "scores"))
                  (Js.spread raw)))), signals.
  split; [reflexivity|]. split; [rewrite sanitized_signals; now f_equal|].
  split; [exact L|]. split.
  - intros items Ei. rewrite Ei in E.
    change (first_six (VArr items)) with (VArr (firstn 6 items)) in E.
    assert (signals = firstn 6 items) as -> by congruence. clear E L.
    split; [reflexivity|]. split; [|split].
    + exists (skipn 6 items). symmetry. apply firstn_skipn.
    + intros Hl. now apply firstn_all2.
    + unfold all_strings. intros H.
      rewrite <- (firstn_skipn 6 items) in H.
      now apply Forall_app in H.
  - intros NA. destruct (Js.opt_get raw "aiSlopSignals");
      try discriminate; simpl in E; now injection E.
Qed.

Lemma sanitized_signals_prefix_witness :
  exists out,
    sanitizeResult
      (VObj [("aiSlopSignals",
               VArr (map VStr ["a"; "b"; "c"; "d"; "e"; "f"; "g"]))])
    = inr (VObj out) /\
    Js.lookup "aiSlopSignals" out
    = Some (VArr (map VStr ["a"; "b"; "c"; "d"; "e"; "f"])).
Proof.
  destruct (sanitized_signals_prefix
              (VObj [("aiSlopSignals",
                       VArr (map VStr ["a"; "b"; "c"; "d"; "e"; "f"; "g"]))])
              eq_refl)
    as (out & signals & E & L & _ & P & _).
  exists out. split; [exact E|].
  destruct (P _ eq_refl) as (-> & _). exact L.
Defined.

(** C2 as stated fails: an entry that is not a string stays what it is, so
    the output need not be a list of strings. *)
Lemma signals_are_not_coerced :
  ~ (forall out,
       sanitizeResult (VObj [("aiSlopSignals", VArr [VNum (int 1)])])
       = inr (VObj out) ->
       exists strings : list string,
         Js.lookup "aiSlopSignals" out = Some (VArr (map VStr strings))).
Proof.
  intros H.
  destruct (H _ eq_refl) as (strings & E).
  destruct strings as [|s rest]; discriminate.
Qed.

(** C8: sanitizeResult is idempotent: the sanitized form of a critique
    object (of any value but undefined and null) is sanitized to itself. *)
Theorem sanitizeResult_idempotent (raw : value) :
  Js.nullish raw = false ->
  exists out, sanitizeResult raw = inr out /\ sanitizeResult out = inr out.
Proof.
  intros N. rewrite (sanitizeResult_defined raw N).
  eexists. split; [reflexivity|].
  apply (sanitizeResult_fixed raw). now apply sanitizeResult_defined.
Qed.

Lemma sanitizeResult_idempotent_witness :
  exists out,
    sanitizeResult
      (VObj [("verdict", VStr "mid");
             ("aiSlopSignals", VArr [VStr "gradient"; VNum (int 2)]);
             ("scores", VObj [("palette", VNum (Fin (76 # 10)));
                              ("extra", VNull)]);
             ("aiSlopDetected", VStr "yes")]) = inr out /\
    sanitizeResult out = inr out.
Proof. apply sanitizeResult_idempotent. reflexivity. Defined.

(** ** The match of the object pattern *)

Module Pattern.

Lemma from_first_open_app (pre rest : string) :
  occurs open_brace pre = false ->
  from_first_open (pre ++ String open_brace rest)
  = Some (String open_brace rest).
Proof.
  induction pre as [|c pre IH]; simpl; [reflexivity|].
  destruct (Ascii.eqb c open_brace); simpl; [discriminate | exact IH].
Qed.

Lemma from_first_open_inv (s t : string) :
  from_first_open s = Some t ->
  exists pre rest,
    s = pre ++ t /\ t = String open_brace rest /\ occurs open_brace pre = false.
Proof.
  induction s as [|c s IH]; simpl; [discriminate|].
  destruct (Ascii.eqb c open_brace) eqn:E.
  - intros [= <-]. apply Ascii.eqb_eq in E. subst c.
    exists EmptyString, s. repeat split.
  - intros H. destruct (IH H) as (pre & rest & -> & -> & O).
    exists (String c pre), rest. simpl. rewrite E. repeat split. exact O.
Qed.

Lemma through_last_close_none (s : string) :
  through_last_close s = None <-> occurs close_brace s = false.
Proof.
  induction s as [|c s IH]; simpl; [tauto|].
  destruct (through_last_close s) as [p|].
  - split; [discriminate|]. intros H.
    apply orb_false_elim in H as [_ H]. apply IH in H. discriminate.
  - destruct (Ascii.eqb c close_brace); simpl.
    + split; discriminate.
    + split; intros _; [now apply IH | reflexivity].
Qed.

Lemma through_last_close_app (p post : string) :
  occurs close_brace post = false ->
  through_last_close (p ++ String close_brace post)
  = Some (p ++ String close_brace EmptyString).
Proof.
  intros H. induction p as [|c p IH]; simpl.
  - apply through_last_close_none in H. now rewrite H.
  - now rewrite IH.
Qed.

Lemma through_last_close_inv (s m : string) :
  through_last_close s = Some m ->
  exists p post,
    s = m ++ post /\ m = p ++ String close_brace EmptyString /\ occurs close_brace post = false.
Proof.
  revert m. induction s as [|c s IH]; simpl; intros m; [discriminate|].
  destruct (through_last_close s) as [p|] eqn:E.
  - intros [= <-]. destruct (IH p eq_refl) as (p' & post & -> & -> & O).
    exists (String c p'), post. repeat split. exact O.
  - destruct (Ascii.eqb c close_brace) eqn:Ec; [|discriminate].
    intros [= <-]. apply Ascii.eqb_eq in Ec. subst c.
    exists EmptyString, s. repeat split.
    now apply through_last_close_none.
Qed.

Lemma occurs_app (c : ascii) (a b : string) :
  occurs c (a ++ b) = occurs c a || occurs c b.
Proof.
  induction a as [|d a IH]; simpl; [reflexivity|].
  now rewrite IH, orb_assoc.
Qed.

Lemma append_assoc (a b c : string) : (a ++ b) ++ c = a ++ (b ++ c).
Proof. induction a as [|d a IH]; simpl; [reflexivity | now rewrite IH]. Qed.

(** The match runs from the first opening brace to the last closing
    brace. *)
Lemma match_object_braced (pre mid post : string) :
  occurs open_brace pre = false ->
  occurs close_brace post = false ->
  match_object (braced pre mid post) = Some (braced EmptyString mid EmptyString).
Proof.
  intros Hpre Hpost. unfold match_object, braced.
  rewrite from_first_open_app by exact Hpre.
  change (String open_brace (mid ++ String close_brace post))
    with (String open_brace mid ++ String close_brace post).
  now rewrite through_last_close_app by exact Hpost.
Qed.

(** A match is such a substring. *)
Lemma match_object_inv (s m : string) :
  match_object s = Some m ->
  exists pre mid post,
    s = braced pre mid post /\ m = braced EmptyString mid EmptyString /\ occurs open_brace pre = false /\ occurs close_brace post = false.
Proof.
  unfold match_object.
  destruct (from_first_open s) as [t|] eqn:E; [|discriminate].
  destruct (from_first_open_inv s t E) as (pre & rest & -> & -> & Hpre).
  intros H.
  destruct (through_last_close_inv _ _ H) as (p & post & Es & -> & Hpost).
  destruct p as [|c mid]; simpl in Es.
  - injection Es as Ec _. discriminate Ec.
  - injection Es as <- ->.
    exists pre, mid, post. unfold braced. simpl.
    rewrite append_assoc. simpl. repeat split; assumption.
Qed.

Lemma match_object_cons (c : ascii) (rest : string) :
  match_object (String c rest)
  = if Ascii.eqb c open_brace then through_last_close (String c rest)
    else match_object rest.
Proof.
  unfold match_object. cbn [from_first_open].
  destruct (Ascii.eqb c open_brace); reflexivity.
Qed.

Lemma occurs_close (a post : string) :
  occurs close_brace (a ++ String close_brace post) = true.
Proof.
  rewrite occurs_app. cbn [occurs]. rewrite Ascii.eqb_refl.
  apply orb_true_r.
Qed.

Lemma through_last_close_found (a post : string) :
  through_last_close (a ++ String close_brace post) <> None.
Proof.
  intros H. apply through_last_close_none in H.
  rewrite occurs_close in H. discriminate.
Qed.

(** A text with an opening brace and a closing brace after it matches. *)
Lemma match_object_found (pre mid post : string) :
  match_object (braced pre mid post) <> None.
Proof.
  unfold braced. induction pre as [|c pre IH].
  - change (EmptyString ++ ?x) with x. rewrite match_object_cons.
    rewrite Ascii.eqb_refl.
    apply (through_last_close_found (String open_brace mid) post).
  - change (String c pre ++ ?x) with (String c (pre ++ x)).
    rewrite match_object_cons.
    destruct (Ascii.eqb c open_brace); [|exact IH].
    replace (String c (pre ++ String open_brace (mid ++ String close_brace post)))
      with (String c (pre ++ String open_brace mid) ++ String close_brace post)
      by (simpl; now rewrite append_assoc).
    apply through_last_close_found.
Qed.

Lemma match_object_none (s : string) :
  match_object s = None <->
  (forall pre mid post, s <> braced pre mid post).
Proof.
  split.
  - intros H pre mid post ->. now apply (match_object_found pre mid post).
  - intros H. destruct (match_object s) as [m|] eqn:E; [|reflexivity].
    destruct (match_object_inv s m E) as (pre & mid & post & -> & _).
    now destruct (H pre mid post).
Qed.

End Pattern.

(** ** The scroll sweep *)

(** X24: the offsets scrolled to are exactly the multiples of the step
    (800) from 0 up to, and not including, the height of the page; none
    when the height is not positive. *)
Lemma scroll_offsets_spec (height y : Z) :
  In y (scroll_offsets height) <->
  exists i, 0 <= i /\ y = step * i /\ y < height.
Proof.
  unfold scroll_offsets, step. rewrite in_map_iff.
  pose proof (Z.div_mod (height + 800 - 1) 800 ltac:(lia)) as D.
  pose proof (Z.mod_pos_bound (height + 800 - 1) 800 ltac:(lia)) as B.
  split.
  - intros (i & <- & Hi). apply in_seq in Hi. exists (Z.of_nat i).
    repeat split; lia.
  - intros (i & Hi & -> & Hy). exists (Z.to_nat i).
    rewrite Z2Nat.id by exact Hi. split; [reflexivity|].
    apply in_seq. lia.
Qed.

Example scroll_offsets_1700 :
  scroll_offsets 1700 = [0; 800; 1600] /\ scroll_offsets 0 = [].
Proof. split; reflexivity. Qed.

(** ** Handles and traces of the capture *)

Section Capture.

Variable w : World.

Lemma neutral_ret {A : Type} (a : A) : handle_neutral (ret a).
Proof.
  intros st. simpl. repeat split. exists []. split; [|constructor].
  now rewrite app_nil_r.
Qed.

Lemma neutral_bind {A B : Type} (m : M A) (k : A -> M B) :
  handle_neutral m -> (forall a, handle_neutral (k a)) ->
  handle_neutral (bind m k).
Proof.
  intros Hm Hk st. unfold bind.
  destruct (Hm st) as (Hb & Hp & added & Ht & Hf).
  destruct (m st) as [st1 [e|a]]; simpl in *.
  - repeat split; try assumption. now exists added.
  - destruct (Hk a st1) as (Hb' & Hp' & added' & Ht' & Hf').
    split; [congruence|]. split; [congruence|].
    exists (added ++ added')%list. split.
    + now rewrite Ht', Ht, app_assoc.
    + apply Forall_app. now split.
Qed.

Lemma neutral_await (c : call) :
  on_handle c = false -> handle_neutral (await w c).
Proof.
  intros H st. unfold await.
  destruct (fault w (trace st) c); destruct c; try discriminate; simpl;
    repeat split; eexists; (split; [reflexivity|]); repeat constructor.
Qed.

Lemma neutral_scroll (offsets : list Z) :
  handle_neutral (scroll_through w offsets).
Proof.
  induction offsets as [|y rest IH]; simpl.
  - apply neutral_ret.
  - apply neutral_bind; [now apply neutral_await|]. intros _.
    apply neutral_bind; [now apply neutral_await|]. intros _. exact IH.
Qed.

Lemma neutral_capture_page (url : string) :
  handle_neutral (capture_page w url).
Proof.
  unfold capture_page.
  repeat (apply neutral_bind;
          [first [now apply neutral_await | apply neutral_scroll]|];
          intros _).
  apply neutral_ret.
Qed.

End Capture.

Section Release.

Variable w : World.

Lemma capture_opened (url : string) (st : State) :
  fault w (trace st) (Launch true) = None ->
  fault w (trace st ++ [Launch true]) (NewPage 1600 1000 (3 # 2)) = None ->
  captureScreenshot w url st
  = try_finally (capture_page w url) (release w)
      {| trace := (trace st ++ [Launch true])
                    ++ [NewPage 1600 1000 (3 # 2)];
         browsers := S (browsers st);
         pages := S (pages st) |}.
Proof.
  intros HL HN.
  unfold captureScreenshot, bind, await at 1. rewrite HL.
  unfold await at 1. cbn [record effect trace browsers pages]. rewrite HN.
  reflexivity.
Qed.

Lemma release_closes (st : State) :
  (forall history, fault w history PageClose = None) ->
  (forall history, fault w history BrowserClose = None) ->
  release w st
  = ({| trace := (trace st ++ [PageClose]) ++ [BrowserClose];
        browsers := pred (browsers st);
        pages := 0 |}, inr tt).
Proof.
  intros HP HB. unfold release, bind, await. rewrite HP.
  cbn [record effect trace browsers pages]. now rewrite HB.
Qed.

(** When [page.close()] rejects, [browser.close()] is not called. *)
Lemma release_page_close_rejects (st : State) (e : thrown) :
fault w (trace st) PageClose = Some e ->
release w st = (record PageClose st, inl e).
Proof. intros H. unfold release, bind, await. now rewrite H. Qed.

(** X25: when the browser and the page were opened and the two close
    calls succeed, both are closed on every path through the [try] block,
    whether it returned or threw, the close calls coming last and in this
    order, and the completion of the block is passed on. *)
Lemma capture_releases (url : string) (st : State) :
  fault w (trace st) (Launch true) = None ->
  fault w (trace st ++ [Launch true]) (NewPage 1600 1000 (3 # 2)) = None ->
  (forall history, fault w history PageClose = None) ->
  (forall history, fault w history BrowserClose = None) ->
  exists calls st1,
    Forall (fun c => on_handle c = false) calls /\
    trace (fst (captureScreenshot w url st))
    = (trace st ++ [Launch true; NewPage 1600 1000 (3 # 2)] ++ calls
         ++ [PageClose; BrowserClose])%list /\
    browsers (fst (captureScreenshot w url st)) = browsers st /\
    pages (fst (captureScreenshot w url st)) = 0%nat /\
    snd (captureScreenshot w url st) = snd (capture_page w url st1).
Proof.
  intros HL HN HP HB. rewrite (capture_opened url st HL HN).
  set (st1 := {| trace := (trace st ++ [Launch true])
                            ++ [NewPage 1600 1000 (3 # 2)];
                 browsers := S (browsers st);
                 pages := S (pages st) |}).
  destruct (neutral_capture_page w url st1) as (Eb & Ep & calls & Et & Hc).
  exists calls, st1. unfold try_finally.
  destruct (capture_page w url st1) as [st2 r]. simpl in Eb, Ep, Et.
  rewrite (release_closes st2 HP HB). cbn [fst snd trace browsers pages].
  split; [exact Hc|]. split.
  - rewrite Et. now rewrite <- !app_assoc.
  - rewrite Eb. repeat split.
Qed.

(** When page creation rejects, the browser that was launched is left
    open: no close call is made. *)
Lemma capture_without_page (url : string) (st : State) (e : thrown) :
  fault w (trace st) (Launch true) = None ->
  fault w (trace st ++ [Launch true]) (NewPage 1600 1000 (3 # 2)) = Some e ->
  captureScreenshot w url st
  = ({| trace := (trace st ++ [Launch true])
                   ++ [NewPage 1600 1000 (3 # 2)];
        browsers := S (browsers st);
        pages := pages st |}, inl e).
Proof.
  intros HL HN.
  unfold captureScreenshot, bind, await at 1. rewrite HL.
  unfold await at 1. cbn [record effect trace browsers pages]. rewrite HN.
  reflexivity.
Qed.

End Release.

Lemma capture_releases_witness :
exists calls,
  trace (fst (captureScreenshot
                (Sample.world None Sample.unreachable (inl (ErrorObj "unused")))
                "https://example.com/" initial))
  = ([Launch true; NewPage 1600 1000 (3 # 2)] ++ calls
       ++ [PageClose; BrowserClose])%list.
Proof.
destruct (capture_releases
            (Sample.world None Sample.unreachable (inl (ErrorObj "unused")))
            "https://example.com/" initial eq_refl eq_refl)
  as (calls & st1 & _ & E & _).
- intros history. reflexivity.
- intros history. reflexivity.
- exists calls. exact E.
Defined.

(** C5, at an input where it fails: when [browser.newPage] rejects, the
    function propagates the error with the launched browser still open,
    and the trace holds no close call. *)
Theorem captureScreenshot_leaks_browser (w : World) (url : string) (e : thrown) :
  fault w [] (Launch true) = None ->
  fault w [Launch true] (NewPage 1600 1000 (3 # 2)) = Some e ->
  captureScreenshot w url initial
  = ({| trace := [Launch true; NewPage 1600 1000 (3 # 2)];
        browsers := 1;
        pages := 0 |}, inl e).
Proof.
  intros HL HN. now rewrite (capture_without_page w url initial e HL HN).
Qed.

Lemma captureScreenshot_leaks_browser_witness :
  captureScreenshot
    (Sample.world (Some "sk-or-1") Sample.no_page (inl (ErrorObj "unused")))
    "https://example.com/" initial
  = ({| trace := [Launch true; NewPage 1600 1000 (3 # 2)];
        browsers := 1;
        pages := 0 |}, inl (ErrorObj "browser has been closed")).
Proof. apply captureScreenshot_leaks_browser; reflexivity. Defined.

(** ** The handler of POST /api/analyze *)

Section Handler.

Variable w : World.

(** A request whose [url] is a non-empty string gets to the URL
    constructor, then to the test of the key, then to the [try] block. *)
Lemma analyze_valid (fields : object) (s : string) (st : State) :
  Js.lookup "url" fields = Some (VStr s) -> s <> "" ->
  analyze w (VObj fields) st
  = match normalize w s with
    | None =>
        (record (NewURL (absolute s)) st, inr (error_reply 400 "Invalid URL"))
    | Some normalized =>
        match configured_key w with
        | None =>
            (record (NewURL (absolute s)) st,
             inr (error_reply 500
                    "OPENROUTER_API_KEY is missing in environment"))
        | Some key =>
            try_catch (pipeline w key normalized) (on_error)
              (record (NewURL (absolute s)) st)
        end
    end.
Proof.
  intros H N. unfold analyze, bind, lift, destructure_url, Js.get.
  rewrite H. cbn [Js.Boolean]. apply String.eqb_neq in N. rewrite N.
  cbn [negb]. unfold note.
  destruct (normalize w s); [|reflexivity].
  destruct (configured_key w); reflexivity.
Qed.

Lemma analyze_required (fields : object) (st : State) :
  Js.lookup "url" fields = None \/
  (exists v, Js.lookup "url" fields = Some v /\ Js.is_string v = false) \/
  Js.lookup "url" fields = Some (VStr "") ->
  analyze w (VObj fields) st = (st, inr (error_reply 400 "url is required")).
Proof.
  unfold analyze, bind, lift, destructure_url, Js.get.
  intros [H|[(v & H & S)|H]]; rewrite H; try reflexivity.
  destruct v; try discriminate; reflexivity.
Qed.

Section Pipeline.

Variables (key normalized : string) (st st1 : State) (shot : Buffer).

Let req : Request :=
  critique_request w key normalized (base64 w shot).

Lemma pipeline_no_capture (e : thrown) :
  captureScreenshot w normalized st = (st1, inl e) ->
  pipeline w key normalized st = (st1, inl e).
Proof. intros H. unfold pipeline, bind. now rewrite H. Qed.

Hypothesis captured : captureScreenshot w normalized st = (st1, inr shot).

Lemma pipeline_no_answer (e : thrown) :
  fetch w req = inl e ->
  pipeline w key normalized st = (record (Fetch req) st1, inl e).
Proof.
  intros H. unfold pipeline, bind. rewrite captured.
  unfold note, lift. fold req. now rewrite H.
Qed.

Lemma pipeline_upstream_error (response : Response) :
  fetch w req = inr response -> ok response = false ->
  pipeline w key normalized st
  = (record ResponseText (record (Fetch req) st1),
     match text response with
     | inl e => inl e
     | inr err =>
         inl (ErrorObj ("OpenRouter error " ++ decimal (status response)
                          ++ ": " ++ err))
     end).
Proof.
  intros H O. unfold pipeline, bind. rewrite captured.
  unfold note, lift. fold req. rewrite H, O. cbn [negb].
  destruct (text response); reflexivity.
Qed.

Lemma pipeline_answered (response : Response) :
  fetch w req = inr response -> ok response = true ->
  pipeline w key normalized st
  = (record ResponseJson (record (Fetch req) st1),
     match json response with
     | inl e => inl e
     | inr data =>
         match Js.get data "choices" with
         | inl e => inl e
         | inr choices =>
             match safeParseJson (JSON_parse w) (model_text choices) with
             | inl e => inl e
             | inr analysis =>
                 inr {| code := 200;
                        sent :=
                          VObj [("url", VStr normalized);
                                ("screenshotBase64",
                                  VStr (data_url (base64 w shot)));
                                ("analysis", analysis)] |}
             end
         end
     end).
Proof.
  intros H O. unfold pipeline, bind. rewrite captured.
  unfold note, lift. fold req. rewrite H, O. cbn [negb].
  destruct (json response) as [e|data]; [reflexivity|].
  destruct (Js.get data "choices") as [e|choices]; [reflexivity|].
  unfold ret.
  destruct (safeParseJson (JSON_parse w) (model_text choices));
    reflexivity.
Qed.

End Pipeline.

(** The [try] block returns nothing but the whole analysis. *)
Lemma pipeline_whole (key normalized : string) (st st' : State) (r : Reply) :
  pipeline w key normalized st = (st', inr r) -> whole_or_error r.
Proof.
  destruct (captureScreenshot w normalized st) as [st1 [e|shot]] eqn:C.
  - rewrite (pipeline_no_capture key normalized st st1 e C). discriminate.
  - destruct (fetch w (critique_request w key normalized (base64 w shot)))
      as [e|response] eqn:F.
    + rewrite (pipeline_no_answer key normalized st st1 shot C e F).
      discriminate.
    + destruct (ok response) eqn:O.
      * rewrite (pipeline_answered key normalized st st1 shot C response F O).
        destruct (json response) as [e|data]; [discriminate|].
        destruct (Js.get data "choices") as [e|choices]; [discriminate|].
        destruct (safeParseJson (JSON_parse w) (model_text choices))
          as [e|a] eqn:S; [discriminate|].
        destruct (safeParseJson_inv _ _ _ S) as [raw R].
        intros [= _ <-]. constructor.
        exact (sanitizeResult_shape raw a R).
      * rewrite (pipeline_upstream_error key normalized st st1 shot C
                   response F O).
        destruct (text response); discriminate.
Qed.

(** What the handler does with the completion of the [try] block. *)
Lemma try_catch_on_error (key normalized : string) (st : State) :
  try_catch (pipeline w key normalized) on_error st
  = match pipeline w key normalized st with
    | (st', inl e) => (st', inr (error_reply 500 (describe e)))
    | (st', inr r) => (st', inr r)
    end.
Proof. reflexivity. Qed.

Lemma analyze_whole_or_error (req_body : value) (st st' : State) (r : Reply) :
  analyze w req_body st = (st', inr r) -> whole_or_error r.
Proof.
  unfold analyze, bind, lift.
  destruct (destructure_url req_body) as [e|url]; [discriminate|].
  destruct url; try (intros [= _ <-]; constructor; now left).
  destruct (negb (Js.Boolean (VStr s)));
    [intros [= _ <-]; constructor; now left|].
  unfold note.
  destruct (normalize w s) as [normalized|];
    [|intros [= _ <-]; constructor; now left].
  destruct (configured_key w) as [key|];
    [|intros [= _ <-]; constructor; now right].
  rewrite try_catch_on_error.
  destruct (pipeline w key normalized (record (NewURL (absolute s)) st))
    as [st1 [e|r1]] eqn:P.
  - intros [= _ <-]. constructor. now right.
  - intros [= _ <-]. exact (pipeline_whole _ _ _ _ _ P).
Qed.

End Handler.

(** ** Claims on the handler *)

(** C9: a request whose [url] is missing, not a string or the empty string
    is answered 400 "url is required", in the initial state: no URL was
    constructed, the key was not looked at (the world is arbitrary), no
    browser was launched. *)
Theorem url_is_required (w : World) (fields : object) :
  Js.lookup "url" fields = None \/
  (exists v, Js.lookup "url" fields = Some v /\ Js.is_string v = false) \/
  Js.lookup "url" fields = Some (VStr "") ->
  analyze w (VObj fields) initial
  = ({| trace := []; browsers := 0; pages := 0 |},
     inr {| code := 400;
            sent := VObj [("error", VStr "url is required")] |}).
Proof. intros H. now rewrite (analyze_required w fields initial H). Qed.

Lemma url_is_required_witness :
  analyze (Sample.world None Sample.no_fault (inl (ErrorObj "unused")))
    (VObj [("url", VNum (int 42))]) initial
  = ({| trace := []; browsers := 0; pages := 0 |},
     inr {| code := 400;
            sent := VObj [("error", VStr "url is required")] |}).
Proof.
  apply url_is_required. right. left.
  exists (VNum (int 42)). split; reflexivity.
Defined.

(** C4: with a valid [url] and no key configured (unset or empty), the
    reply is 500 "OPENROUTER_API_KEY is missing in environment" and the
    only call made is the URL constructor: no browser is launched.  The
    key is looked at after the URL: when the URL is invalid the reply is
    400 "Invalid URL" although the key is missing. *)
Theorem missing_key_before_capture (w : World) (fields : object) (s : string) :
  Js.lookup "url" fields = Some (VStr s) -> s <> "" ->
  env_OPENROUTER_API_KEY w = None \/ env_OPENROUTER_API_KEY w = Some "" ->
  (forall normalized, normalize w s = Some normalized ->
     analyze w (VObj fields) initial
     = ({| trace := [NewURL (absolute s)]; browsers := 0; pages := 0 |},
        inr {| code := 500;
               sent := VObj [("error",
                               VStr "OPENROUTER_API_KEY is missing in environment")] |})) /\
  (normalize w s = None ->
     analyze w (VObj fields) initial
     = ({| trace := [NewURL (absolute s)]; browsers := 0; pages := 0 |},
        inr {| code := 400; sent := VObj [("error", VStr "Invalid URL")] |})).
Proof.
  intros H N K. rewrite (analyze_valid w fields s initial H N).
  assert (configured_key w = None) as ->
    by (unfold configured_key; destruct K as [-> | ->]; reflexivity).
  split.
  - intros normalized ->. reflexivity.
  - intros ->. reflexivity.
Qed.

Lemma missing_key_before_capture_witness :
  analyze (Sample.world (Some "") Sample.no_fault (inl (ErrorObj "unused")))
    (Sample.request "example.com") initial
  = ({| trace := [NewURL "https://example.com"]; browsers := 0; pages := 0 |},
     inr {| code := 500;
            sent := VObj [("error",
                            VStr "OPENROUTER_API_KEY is missing in environment")] |}).
Proof.
  refine (proj1 (missing_key_before_capture
                   (Sample.world (Some "") Sample.no_fault
                      (inl (ErrorObj "unused")))
                   [("url", VStr "example.com")] "example.com"
                   eq_refl _ (or_intror eq_refl))
                "https://example.com/" eq_refl).
  discriminate.
Defined.

(** C6: for a non-empty [url], "https://" is put in front exactly when the
    text does not begin with "http", and the URL constructor is applied to
    the result; when it throws the reply is 400 "Invalid URL", otherwise
    its serialization is the normalized URL, the one a whole reply
    carries.  So "example.com" goes to the constructor as
    "https://example.com" and normalizes to "https://example.com/" (the
    serialization of that URL), and "http://x.com" goes to the constructor
    as it is. *)
Theorem url_normalization (w : World) :
  (forall s, s <> "" ->
     normalize w s
     = URL_toString w (if String.prefix "http" s then s else "https://" ++ s)) /\
  (forall fields s,
     Js.lookup "url" fields = Some (VStr s) -> s <> "" ->
     normalize w s = None ->
     analyze w (VObj fields) initial
     = ({| trace := [NewURL (absolute s)]; browsers := 0; pages := 0 |},
        inr {| code := 400; sent := VObj [("error", VStr "Invalid URL")] |})) /\
  (forall fields s normalized st r,
     Js.lookup "url" fields = Some (VStr s) -> s <> "" ->
     normalize w s = Some normalized ->
     analyze w (VObj fields) initial = (st, inr r) -> code r = 200 ->
     Js.opt_get (sent r) "url" = VStr normalized) /\
  (URL_toString w "https://example.com" = Some "https://example.com/" ->
   normalize w "example.com" = Some "https://example.com/") /\
  normalize w "http://x.com" = URL_toString w "http://x.com".
Proof.
  split; [reflexivity|]. split; [|split; [|split; [intros H; exact H | reflexivity]]].
  - intros fields s H N E.
    rewrite (analyze_valid w fields s initial H N), E. reflexivity.
  - intros fields s normalized st r H N E.
    rewrite (analyze_valid w fields s initial H N), E.
    destruct (configured_key w) as [key|].
    + rewrite try_catch_on_error.
      destruct (pipeline w key normalized (record (NewURL (absolute s)) initial))
        as [st1 [e|r1]] eqn:P.
      * intros [= _ <-]. discriminate.
      * intros [= _ <-] _. revert P. clear.
        destruct (captureScreenshot w normalized
                    (record (NewURL (absolute s)) initial))
          as [st2 [e|shot]] eqn:C.
        -- rewrite (pipeline_no_capture w key normalized _ st2 e C).
           discriminate.
        -- destruct (fetch w (critique_request w key normalized (base64 w shot)))
             as [e|response] eqn:F.
           ++ rewrite (pipeline_no_answer w key normalized _ st2 shot C e F).
              discriminate.
           ++ destruct (ok response) eqn:O.
              ** rewrite (pipeline_answered w key normalized _ st2 shot C
                            response F O).
                 destruct (json response) as [e|data]; [discriminate|].
                 destruct (Js.get data "choices") as [e|choices];
                   [discriminate|].
                 destruct (safeParseJson (JSON_parse w) (model_text choices));
                   [discriminate|].
                 intros [= _ <-]. reflexivity.
              ** rewrite (pipeline_upstream_error w key normalized _ st2 shot C
                            response F O).
                 destruct (text response); discriminate.
    + intros [= _ <-]. discriminate.
Qed.

Lemma url_normalization_witness :
  analyze (Sample.world (Some "sk-or-1") Sample.no_fault
             (inl (ErrorObj "unused")))
    (Sample.request "not a url") initial
  = ({| trace := [NewURL "https://not a url"]; browsers := 0; pages := 0 |},
     inr {| code := 400; sent := VObj [("error", VStr "Invalid URL")] |}).
Proof.
  refine (proj1 (proj2 (url_normalization
                          (Sample.world (Some "sk-or-1") Sample.no_fault
                             (inl (ErrorObj "unused")))))
            [("url", VStr "not a url")] "not a url" eq_refl _ eq_refl).
  discriminate.
Defined.

Lemma no_content_text (data : value) :
  no_content data ->
  exists choices,
    Js.get data "choices" = inr choices /\ model_text choices = VStr "".
Proof.
  intros [fields [H|H] | fields H | fields rest H
          | fields choice rest H [Hm|Hm]
          | fields choice message rest H Hm [Hc|Hc]];
    simpl; rewrite H; eexists; (split; [reflexivity|]);
    unfold model_text, Js.opt_first, Js.opt_get, Js.get; cbn [hd];
    rewrite ?Hm, ?Hc; reflexivity.
Qed.

Section Answers.

Variables (w : World) (fields : object) (s normalized key : string).
Variables (st1 : State) (shot : Buffer) (response : Response).

Hypothesis url_given : Js.lookup "url" fields = Some (VStr s).
Hypothesis url_not_empty : s <> "".
Hypothesis url_valid : normalize w s = Some normalized.
Hypothesis key_given : configured_key w = Some key.

Lemma analyze_pipeline :
  analyze w (VObj fields) initial
  = match pipeline w key normalized (record (NewURL (absolute s)) initial) with
    | (st', inl e) => (st', inr (error_reply 500 (describe e)))
    | (st', inr r) => (st', inr r)
    end.
Proof.
  rewrite (analyze_valid w fields s initial url_given url_not_empty).
  rewrite url_valid, key_given. apply try_catch_on_error.
Qed.

Hypothesis captured :
  captureScreenshot w normalized (record (NewURL (absolute s)) initial)
  = (st1, inr shot).
Hypothesis answered :
  fetch w (critique_request w key normalized (base64 w shot)) = inr response.

Lemma analyze_answered :
  ok response = true ->
  analyze w (VObj fields) initial
  = (record ResponseJson
       (record (Fetch (critique_request w key normalized (base64 w shot))) st1),
     match json response with
     | inl e => inr (error_reply 500 (describe e))
     | inr data =>
         match Js.get data "choices" with
         | inl e => inr (error_reply 500 (describe e))
         | inr choices =>
             match safeParseJson (JSON_parse w) (model_text choices) with
             | inl e => inr (error_reply 500 (describe e))
             | inr analysis =>
                 inr {| code := 200;
                        sent :=
                          VObj [("url", VStr normalized);
                                ("screenshotBase64",
                                  VStr (data_url (base64 w shot)));
                                ("analysis", analysis)] |}
             end
         end
     end).
Proof.
  intros O. rewrite analyze_pipeline.
  rewrite (pipeline_answered w key normalized _ st1 shot captured
             response answered O).
  destruct (json response) as [e|data]; [reflexivity|].
  destruct (Js.get data "choices") as [e|choices]; [reflexivity|].
  destruct (safeParseJson (JSON_parse w) (model_text choices)); reflexivity.
Qed.

Lemma analyze_upstream_error (err : string) :
  ok response = false -> text response = inr err ->
  analyze w (VObj fields) initial
  = (record ResponseText
       (record (Fetch (critique_request w key normalized (base64 w shot))) st1),
     inr (error_reply 500
            ("OpenRouter error " ++ decimal (status response) ++ ": " ++ err))).
Proof.
  intros O T. rewrite analyze_pipeline.
  rewrite (pipeline_upstream_error w key normalized _ st1 shot captured
             response answered O), T.
  reflexivity.
Qed.

End Answers.

(** C10: when the critique service answers with a success status and a
    JSON body without [choices], with no first choice, or with a first
    choice without message content, the text of the model is the empty
    string and the reply is 500 "Model did not return JSON". *)
Theorem no_content_is_no_json
    (w : World) (fields : object) (s normalized key : string)
    (st1 : State) (shot : Buffer) (response : Response) (data : value) :
  Js.lookup "url" fields = Some (VStr s) -> s <> "" ->
  normalize w s = Some normalized ->
  configured_key w = Some key ->
  captureScreenshot w normalized (record (NewURL (absolute s)) initial)
  = (st1, inr shot) ->
  fetch w (critique_request w key normalized (base64 w shot)) = inr response ->
  ok response = true ->
  json response = inr data ->
  no_content data ->
  (exists choices,
     Js.get data "choices" = inr choices /\ model_text choices = VStr "") /\
  analyze w (VObj fields) initial
  = (record ResponseJson
       (record (Fetch (critique_request w key normalized (base64 w shot))) st1),
     inr {| code := 500;
            sent := VObj [("error", VStr "Model did not return JSON")] |}).
Proof.
  intros U N V K C F O J D.
  destruct (no_content_text data D) as (choices & G & T).
  split; [now exists choices|].
  rewrite (analyze_answered w fields s normalized key st1 shot response
             U N V K C F O).
  now rewrite J, G, T.
Qed.

Lemma no_content_is_no_json_witness :
  exists st,
    analyze
      (Sample.world (Some "sk-or-1") Sample.no_fault
         (Sample.answered 200 "{}" (VObj [("choices", VArr [VObj []])])))
      (Sample.request "example.com") initial
    = (st,
       inr {| code := 500;
              sent := VObj [("error", VStr "Model did not return JSON")] |}).
Proof.
  eexists.
  refine (proj2 (no_content_is_no_json
                   (Sample.world (Some "sk-or-1") Sample.no_fault
                      (Sample.answered 200 "{}"
                         (VObj [("choices", VArr [VObj []])])))
                   [("url", VStr "example.com")] "example.com"
                   "https://example.com/" "sk-or-1" _ _ _
                   (VObj [("choices", VArr [VObj []])])
                   eq_refl _ eq_refl eq_refl eq_refl eq_refl eq_refl eq_refl _)).
  - discriminate.
  - apply (no_message _ [] []); [reflexivity | now left].
Defined.

(** C3: safeParseJson takes the substring from the first opening brace of
    the text to its last closing brace and parses it (the parsed value is
    then sanitized); when the text has no such substring it throws "Model
    did not return JSON", and when the substring does not parse it throws
    the error of the parser; the handler answers 500 with the message of
    either, "Model did not return JSON" in the first case. *)
Theorem safeParseJson_extracts :
  (forall parse pre mid post,
     occurs open_brace pre = false -> occurs close_brace post = false ->
     safeParseJson parse (VStr (braced pre mid post))
     = match parse (braced "" mid "") with
       | inl e => inl e
       | inr parsed => sanitizeResult parsed
       end) /\
  (forall parse s,
     (forall pre mid post, s <> braced pre mid post) ->
     safeParseJson parse (VStr s) = inl (ErrorObj "Model did not return JSON")) /\
  (forall (w : World) fields s normalized key st1 shot response data choices t,
     Js.lookup "url" fields = Some (VStr s) -> s <> "" ->
     normalize w s = Some normalized ->
     configured_key w = Some key ->
     captureScreenshot w normalized (record (NewURL (absolute s)) initial)
     = (st1, inr shot) ->
     fetch w (critique_request w key normalized (base64 w shot)) = inr response ->
     ok response = true ->
     json response = inr data ->
     Js.get data "choices" = inr choices ->
     model_text choices = VStr t ->
     ((forall pre mid post, t <> braced pre mid post) ->
      snd (analyze w (VObj fields) initial)
      = inr {| code := 500;
               sent := VObj [("error", VStr "Model did not return JSON")] |}) /\
     (forall pre mid post e,
        t = braced pre mid post ->
        occurs open_brace pre = false -> occurs close_brace post = false ->
        JSON_parse w (braced "" mid "") = inl e ->
        snd (analyze w (VObj fields) initial)
        = inr {| code := 500; sent := VObj [("error", VStr (describe e))] |})).
Proof.
  split; [|split].
  - intros parse pre mid post Hpre Hpost. unfold safeParseJson.
    now rewrite (Pattern.match_object_braced pre mid post Hpre Hpost).
  - intros parse s H. unfold safeParseJson.
    apply Pattern.match_object_none in H. now rewrite H.
  - intros w fields s normalized key st1 shot response data choices t
      U N V K C F O J G T.
    rewrite (analyze_answered w fields s normalized key st1 shot response
               U N V K C F O).
    rewrite J, G, T. unfold safeParseJson. split.
    + intros H. apply Pattern.match_object_none in H. now rewrite H.
    + intros pre mid post e -> Hpre Hpost P.
      rewrite (Pattern.match_object_braced pre mid post Hpre Hpost).
      now rewrite P.
Qed.

Lemma safeParseJson_extracts_witness :
  safeParseJson Sample.parse (VStr "Sure! {oops} there you go")
  = inl (ErrorObj "Unexpected token") /\
  safeParseJson Sample.parse (VStr "} no object here {")
  = inl (ErrorObj "Model did not return JSON").
Proof.
  split.
  - exact (proj1 safeParseJson_extracts Sample.parse
             "Sure! " "oops" " there you go" eq_refl eq_refl).
  - apply (proj1 (proj2 safeParseJson_extracts) Sample.parse).
    intros pre mid post H.
    pose proof (Pattern.match_object_found pre mid post) as F.
    rewrite <- H in F. now apply F.
Defined.

(** C7: no reply is partial: it is the whole analysis (url, screenshot and
    a sanitized analysis together, code 200) or an error message alone
    (code 400 or 500); and a failure of the capture or of the critique is
    answered 500 with its description as the message: any exception of the
    [try] block, in particular a navigation that rejects (the page and the
    browser being closed), a critique request that rejects, an upstream
    status that is not a success, whose message carries the status and the
    body, and a malformed critique: a text of the model without a JSON
    object ("Model did not return JSON"), or whose object does not parse
    (the error of the parser). *)
Theorem failures_are_flat_500 (w : World) :
  (forall req_body st r,
     analyze w req_body initial = (st, inr r) -> whole_or_error r) /\
  (forall fields s normalized key,
     Js.lookup "url" fields = Some (VStr s) -> s <> "" ->
     normalize w s = Some normalized ->
     configured_key w = Some key ->
     (forall st e,
        pipeline w key normalized (record (NewURL (absolute s)) initial)
        = (st, inl e) ->
        analyze w (VObj fields) initial
        = (st, inr {| code := 500;
                      sent := VObj [("error", VStr (describe e))] |})) /\
     (forall e,
        fault w [NewURL (absolute s)] (Launch true) = None ->
        fault w [NewURL (absolute s); Launch true]
          (NewPage 1600 1000 (3 # 2)) = None ->
        fault w [NewURL (absolute s); Launch true; NewPage 1600 1000 (3 # 2)]
          (Goto normalized "networkidle" 30000) = Some e ->
        (forall history, fault w history PageClose = None) ->
        (forall history, fault w history BrowserClose = None) ->
        analyze w (VObj fields) initial
        = ({| trace := [NewURL (absolute s); Launch true;
                        NewPage 1600 1000 (3 # 2);
                        Goto normalized "networkidle" 30000;
                        PageClose; BrowserClose];
              browsers := 0; pages := 0 |},
           inr {| code := 500;
                  sent := VObj [("error", VStr (describe e))] |})) /\
     (forall st1 shot e,
        captureScreenshot w normalized (record (NewURL (absolute s)) initial)
        = (st1, inr shot) ->
        fetch w (critique_request w key normalized (base64 w shot)) = inl e ->
        snd (analyze w (VObj fields) initial)
        = inr {| code := 500;
                 sent := VObj [("error", VStr (describe e))] |}) /\
     (forall st1 shot response err,
        captureScreenshot w normalized (record (NewURL (absolute s)) initial)
        = (st1, inr shot) ->
        fetch w (critique_request w key normalized (base64 w shot))
        = inr response ->
        ok response = false -> text response = inr err ->
        snd (analyze w (VObj fields) initial)
        = inr {| code := 500;
                 sent :=
                   VObj [("error",
                           VStr ("OpenRouter error "
                                   ++ decimal (status response)
                                   ++ ": " ++ err))] |}) /\
     (forall st1 shot response data choices,
        captureScreenshot w normalized (record (NewURL (absolute s)) initial)
        = (st1, inr shot) ->
        fetch w (critique_request w key normalized (base64 w shot))
        = inr response ->
        ok response = true ->
        json response = inr data ->
        Js.get data "choices" = inr choices ->
        (forall t,
           model_text choices = VStr t ->
           (forall pre mid post, t <> braced pre mid post) ->
           snd (analyze w (VObj fields) initial)
           = inr {| code := 500;
                    sent := VObj [("error",
                                    VStr "Model did not return JSON")] |}) /\
        (forall pre mid post e,
           model_text choices = VStr (braced pre mid post) ->
           occurs open_brace pre = false ->
           occurs close_brace post = false ->
           JSON_parse w (braced "" mid "") = inl e ->
           snd (analyze w (VObj fields) initial)
           = inr {| code := 500;
                    sent := VObj [("error", VStr (describe e))] |}) /\
        (forall e,
           safeParseJson (JSON_parse w) (model_text choices) = inl e ->
           snd (analyze w (VObj fields) initial)
           = inr {| code := 500;
                    sent := VObj [("error", VStr (describe e))] |}) /\
        (forall analysis,
           safeParseJson (JSON_parse w) (model_text choices) = inr analysis ->
           sanitized analysis /\
           snd (analyze w (VObj fields) initial)
           = inr {| code := 200;
                    sent := VObj [("url", VStr normalized);
                                  ("screenshotBase64",
                                    VStr (data_url (base64 w shot)));
                                  ("analysis", analysis)] |}))).
Proof.
  split.
  - intros req_body st r. apply analyze_whole_or_error.
  - intros fields s normalized key U N V K.
    pose proof (analyze_pipeline w fields s normalized key U N V K) as A.
    split; [|split; [|split; [|split]]].
    + intros st e P. now rewrite A, P.
    + intros e HL HN HG HP HB. rewrite A.
      unfold pipeline, bind.
      rewrite (capture_opened w normalized
                 (record (NewURL (absolute s)) initial) HL HN).
      unfold try_finally, capture_page, bind, await at 1.
      cbn [record trace browsers pages app initial]. rewrite HG.
      rewrite (release_closes w _ HP HB). reflexivity.
    + intros st1 shot e C F. rewrite A.
      now rewrite (pipeline_no_answer w key normalized _ st1 shot C e F).
    + intros st1 shot response err C F O T.
      now rewrite (analyze_upstream_error w fields s normalized key st1 shot
                     response U N V K C F err O T).
    + intros st1 shot response data choices C F O J G.
      rewrite (analyze_answered w fields s normalized key st1 shot response
                 U N V K C F O).
      rewrite J, G. cbn [snd]. split; [|split; [|split]].
      * intros t -> H. unfold safeParseJson.
        apply Pattern.match_object_none in H. now rewrite H.
      * intros pre mid post e -> Hpre Hpost P. unfold safeParseJson.
        rewrite (Pattern.match_object_braced pre mid post Hpre Hpost).
        now rewrite P.
      * intros e ->. reflexivity.
      * intros analysis S. rewrite S. split; [|reflexivity].
        destruct (safeParseJson_inv _ _ _ S) as [raw R].
        exact (sanitizeResult_shape raw analysis R).
Qed.

Lemma failures_are_flat_500_witness :
  snd (analyze
         (Sample.world (Some "sk-or-1") Sample.no_fault
            (Sample.answered 503 "overloaded" VNull))
         (Sample.request "example.com") initial)
  = inr {| code := 500;
           sent := VObj [("error",
                           VStr "OpenRouter error 503: overloaded")] |} /\
  snd (analyze
         (Sample.world (Some "sk-or-1") Sample.no_fault
            (Sample.answered 200 ""
               (VObj [("choices",
                        VArr [VObj [("message",
                                      VObj [("content",
                                              VStr "I cannot judge this site.")])]])])))
         (Sample.request "example.com") initial)
  = inr {| code := 500;
           sent := VObj [("error", VStr "Model did not return JSON")] |}.
Proof.
  split.
  - refine (proj1 (proj2 (proj2 (proj2
              (proj2 (failures_are_flat_500
                        (Sample.world (Some "sk-or-1") Sample.no_fault
                           (Sample.answered 503 "overloaded" VNull)))
                 [("url", VStr "example.com")] "example.com"
                 "https://example.com/" "sk-or-1" eq_refl _ eq_refl eq_refl))))
              _ _ _ "overloaded" eq_refl eq_refl eq_refl eq_refl).
    discriminate.
  - set (data := VObj [("choices",
                         VArr [VObj [("message",
                                       VObj [("content",
                                               VStr "I cannot judge this site.")])]])]).
    set (W := Sample.world (Some "sk-or-1") Sample.no_fault
                (Sample.answered 200 "" data)).
    set (st0 := record (NewURL "https://example.com") initial).
    assert (captureScreenshot W "https://example.com/" st0
            = (fst (captureScreenshot W "https://example.com/" st0),
               inr (png W))) as C by reflexivity.
    destruct (proj2 (failures_are_flat_500 W)
                [("url", VStr "example.com")] "example.com"
                "https://example.com/" "sk-or-1" eq_refl
                ltac:(discriminate) eq_refl eq_refl)
      as (_ & _ & _ & _ & M).
    destruct (M _ (png W) {| status := 200; text := inr ""; json := inr data |}
                data
                (VArr [VObj [("message",
                              VObj [("content",
                                      VStr "I cannot judge this site.")])]])
                C eq_refl eq_refl eq_refl eq_refl) as (NoJson & _).
    apply (NoJson "I cannot judge this site." eq_refl).
    intros pre mid post H.
    pose proof (Pattern.match_object_found pre mid post) as F.
    rewrite <- H in F. now apply F.
Defined.

(** Scenario A of the specification, in the sample world: a reachable page
    and a critique whose text wraps a JSON object give the whole reply,
    after a capture that closed the page and the browser. *)
Example analyze_sample_success :
  exists st analysis,
    analyze
      (Sample.world (Some "sk-or-1") Sample.no_fault
         (Sample.answered 200 ""
            (VObj [("choices",
                     VArr [VObj [("message",
                                   VObj [("content",
                                           VStr "Here you go: {}")])]])])))
      (Sample.request "example.com") initial
    = (st,
       inr {| code := 200;
              sent := VObj [("url", VStr "https://example.com/");
                            ("screenshotBase64",
                              VStr "data:image/png;base64,iVBORw==");
                            ("analysis", VObj analysis)] |}) /\
    browsers st = 0%nat /\ pages st = 0%nat /\
    Js.lookup "scores" analysis
    = Some (VObj [("palette", VNum (int 1));
                  ("typography", VNum (int 1));
                  ("layout", VNum (int 1));
                  ("originality", VNum (int 1));
                  ("overallVibe", VNum (int 1))]).
Proof. eexists. eexists. repeat split. Qed.

(** Scenario E of the specification, in the sample world: when the
    navigation rejects, the reply is 500 with the message of the failure,
    and the page and the browser were closed. *)
Example analyze_sample_unreachable :
  analyze
    (Sample.world (Some "sk-or-1") Sample.unreachable
       (inl (ErrorObj "unused")))
    (Sample.request "no-such-host.invalid") initial
  = ({| trace := [NewURL "https://no-such-host.invalid";
                  Launch true;
                  NewPage 1600 1000 (3 # 2);
                  Goto "https://no-such-host.invalid/" "networkidle" 30000;
                  PageClose;
                  BrowserClose];
        browsers := 0;
        pages := 0 |},
     inr {| code := 500;
            sent := VObj [("error", VStr "net::ERR_NAME_NOT_RESOLVED")] |}).
Proof. reflexivity. Qed.

(** * Further properties *)

(** ** The sanitizer *)

Lemma existsb_eqb_In (k : string) (l : list string) :
  existsb (String.eqb k) l = true <-> In k l.
Proof.
  rewrite existsb_exists. split.
  - intros (x & Hx & E). apply String.eqb_eq in E. now subst.
  - intros H. exists k. split; [exact H | apply String.eqb_refl].
Qed.

Lemma keys_set_append (k : string) (v : value) (o : object) :
  Js.keys (Js.set k v o)
  = (Js.keys o ++ if existsb (String.eqb k) (Js.keys o) then [] else [k])%list.
Proof.
  rewrite JsFacts.keys_set.
  destruct (in_dec string_dec k (Js.keys o)) as [I|N].
  - apply existsb_eqb_In in I. rewrite I. now rewrite app_nil_r.
  - destruct (existsb (String.eqb k) (Js.keys o)) eqn:E; [|reflexivity].
    apply existsb_eqb_In in E. now destruct (N E).
Qed.

Lemma existsb_eqb_snoc (k k' : string) (l : list string) :
  String.eqb k k' = false ->
  existsb (String.eqb k) (l ++ [k']) = existsb (String.eqb k) l.
Proof.
  intros H. rewrite existsb_app. simpl. rewrite H. now rewrite !orb_false_r.
Qed.

Lemma existsb_eqb_after (k a : string) (l : list string) (e : bool) :
  String.eqb k a = false ->
  existsb (String.eqb k) (l ++ if e then [] else [a])
  = existsb (String.eqb k) l.
Proof.
  intros H. destruct e; [now rewrite app_nil_r | now apply existsb_eqb_snoc].
Qed.

Lemma keys_set_three (a b c : string) (va vb vc : value) (o : object) :
  String.eqb b a = false -> String.eqb c a = false -> String.eqb c b = false ->
  Js.keys (Js.set c vc (Js.set b vb (Js.set a va o)))
  = (Js.keys o
     ++ filter (fun k => negb (existsb (String.eqb k) (Js.keys o)))
          [a; b; c])%list.
Proof.
  intros Hba Hca Hcb. rewrite !keys_set_append.
  rewrite (existsb_eqb_after c b _ _ Hcb).
  rewrite (existsb_eqb_after c a _ _ Hca).
  rewrite (existsb_eqb_after b a _ _ Hba).
  cbn [filter].
  destruct (existsb (String.eqb a) (Js.keys o));
    destruct (existsb (String.eqb b) (Js.keys o));
    destruct (existsb (String.eqb c) (Js.keys o));
    cbn [negb]; rewrite ?app_nil_r, <- ?app_assoc; reflexivity.
Qed.

Lemma Boolean_false (v : value) : Js.Boolean v = false <-> falsy v.
Proof.
  unfold falsy. split.
  - destruct v as [| |[|]|[| | |q]|s| |]; simpl; intros H;
      try discriminate; auto 6.
    + right; right; right; right; left. exists q. split; [reflexivity|].
      apply negb_false_iff in H. now apply Qeq_bool_iff.
    + right; right; right; right; right.
      apply negb_false_iff, String.eqb_eq in H. now subst.
  - intros [->|[->|[->|[->|[(q & -> & E)| ->]]]]]; try reflexivity.
    simpl. apply negb_false_iff. now apply Qeq_bool_iff.
Qed.

(** X1: what sanitizeResult returns has the shape of a critique whatever
    the input held: five integer scores of [1,10], a boolean, a list of at
    most six signals. *)
Theorem sanitizeResult_sanitized (raw out : value) :
  sanitizeResult raw = inr out -> sanitized out.
Proof. apply sanitizeResult_shape. Qed.

Lemma sanitizeResult_sanitized_witness :
  sanitized
    (VObj [("scores", VObj [("palette", VNum (int 10));
                            ("typography", VNum (int 1));
                            ("layout", VNum (int 1));
                            ("originality", VNum (int 1));
                            ("overallVibe", VNum (int 1))]);
           ("aiSlopDetected", VBool false);
           ("aiSlopSignals", VArr [])]).
Proof.
  apply (sanitizeResult_sanitized
           (VObj [("scores", VObj [("palette", VNum (int 99));
                                   ("typography", VStr "bad")])])).
  reflexivity.
Defined.

(** X2: sanitizeResult throws exactly on undefined and null (a TypeError,
    from reading [raw.scores]); on any other value it returns an object. *)
Theorem sanitizeResult_throws_on_nullish (raw : value) :
  ((exists e, sanitizeResult raw = inl e) <-> (raw = VUndefined \/ raw = VNull)) /\
  (raw <> VUndefined -> raw <> VNull ->
   exists fields, sanitizeResult raw = inr (VObj fields)).
Proof.
  split; [split|].
  - intros [e H]. destruct raw; try (rewrite sanitizeResult_defined in H
      by reflexivity; discriminate); auto.
  - intros [-> | ->]; eexists; reflexivity.
  - intros U N. rewrite sanitizeResult_defined.
    + eexists. reflexivity.
    + destruct raw; try reflexivity; [now destruct U | now destruct N].
Qed.

Lemma sanitizeResult_throws_on_nullish_witness :
  exists fields, sanitizeResult (VStr "ab") = inr (VObj fields).
Proof.
  apply (proj2 (sanitizeResult_throws_on_nullish (VStr "ab")));
    discriminate.
Defined.

(** X3: on an object (its keys distinct, as JSON.parse builds it) the
    sanitizer keeps every other property with its value, keeps the order
    of the properties, and puts those of [scores], [aiSlopDetected] and
    [aiSlopSignals] that were absent at the end, in this order. *)
Theorem sanitizeResult_keeps_the_rest (fields : object) :
  NoDup (Js.keys fields) ->
  exists out,
    sanitizeResult (VObj fields) = inr (VObj out) /\
    (forall k, k <> "scores" -> k <> "aiSlopDetected" -> k <> "aiSlopSignals" ->
       Js.lookup k out = Js.lookup k fields) /\
    Js.keys out
    = (Js.keys fields
       ++ filter (fun k => negb (existsb (String.eqb k) (Js.keys fields)))
            ["scores"; "aiSlopDetected"; "aiSlopSignals"])%list.
Proof.
  intros ND. rewrite sanitizeResult_defined by reflexivity.
  rewrite (JsFacts.spread_object fields ND).
  eexists. split; [reflexivity|]. split.
  - intros k H1 H2 H3. now apply sanitized_other.
  - apply keys_set_three; reflexivity.
Qed.

Lemma sanitizeResult_keeps_the_rest_witness :
  exists out,
    sanitizeResult
      (VObj [("verdict", VStr "mid"); ("aiSlopDetected", VNum (int 1))])
    = inr (VObj out) /\
    Js.lookup "verdict" out = Some (VStr "mid") /\
    Js.keys out = ["verdict"; "aiSlopDetected"; "scores"; "aiSlopSignals"].
Proof.
  destruct (sanitizeResult_keeps_the_rest
              [("verdict", VStr "mid"); ("aiSlopDetected", VNum (int 1))])
    as (out & E & L & K).
  - repeat constructor; simpl; intuition discriminate.
  - exists out. split; [exact E|]. split; [|exact K].
    rewrite L by discriminate. reflexivity.
Defined.

(** X4: the sanitized [aiSlopDetected] is a boolean, and it is [false]
    exactly when the input's is undefined (absent), null, false, NaN, zero
    or the empty string. *)
Theorem sanitized_detected_truthy (raw : value) :
  Js.nullish raw = false ->
  exists out b,
    sanitizeResult raw = inr (VObj out) /\
    Js.lookup "aiSlopDetected" out = Some (VBool b) /\
    (b = false <-> falsy (Js.opt_get raw "aiSlopDetected")).
Proof.
  intros N. rewrite (sanitizeResult_defined raw N).
  eexists. eexists. split; [reflexivity|].
  split; [apply sanitized_detected | apply Boolean_false].
Qed.

Lemma sanitized_detected_truthy_witness :
  exists out,
    sanitizeResult (VObj [("aiSlopDetected", VStr "no")]) = inr (VObj out) /\
    Js.lookup "aiSlopDetected" out = Some (VBool true).
Proof.
  destruct (sanitized_detected_truthy (VObj [("aiSlopDetected", VStr "no")])
              eq_refl) as (out & b & E & L & F).
  exists out. split; [exact E|]. rewrite L. do 2 f_equal.
  destruct b; [reflexivity|].
  destruct (proj1 F eq_refl) as [H|[H|[H|[H|[(q & H & _)|H]]]]];
    discriminate H.
Defined.

(** X5: clampScore keeps the order of finite scores: a score that is not
    smaller is not clamped to a smaller integer. *)
Theorem clampScore_monotone (p q : Q) (m n : Z) :
  (p <= q)%Q ->
  clampScore (VNum (Fin p)) = int m ->
  clampScore (VNum (Fin q)) = int n ->
  m <= n.
Proof.
  intros H. rewrite !clampScore_finite.
  assert (Qfloor (p + (1 # 2)) <= Qfloor (q + (1 # 2))) as F
    by (apply Qfloor_resp_le; lra).
  revert F. generalize (Qfloor (p + (1 # 2))) (Qfloor (q + (1 # 2))).
  intros a b F. unfold int. intros [= <-] [= <-]. lia.
Qed.

Lemma clampScore_monotone_witness : 3 <= 8.
Proof.
  apply (clampScore_monotone (5 # 2) (76 # 10)).
  - unfold Qle. simpl. lia.
  - reflexivity.
  - reflexivity.
Defined.

(** X6: a score that is already an integer of [1,10] is left as it is. *)
Theorem clampScore_keeps_valid (n : Z) :
  1 <= n <= 10 -> clampScore (VNum (int n)) = int n.
Proof.
  intros H. unfold int at 1.
  rewrite clampScore_finite, JsFacts.floor_half_up. f_equal. lia.
Qed.

Lemma clampScore_keeps_valid_witness : clampScore (VNum (int 7)) = int 7.
Proof. apply clampScore_keeps_valid. lia. Defined.

(** ** The match and the URL *)

(** X7: what the pattern matches is a part of the text that begins with an
    opening brace and ends with a closing brace, and matching it again
    gives it back. *)
Theorem match_object_is_braced (s m : string) :
  match_object s = Some m ->
  exists pre mid post,
    s = pre ++ m ++ post /\
    m = String open_brace (mid ++ String close_brace "") /\
    match_object m = Some m.
Proof.
  intros H.
  destruct (Pattern.match_object_inv s m H)
    as (pre & mid & post & -> & -> & _ & _).
  exists pre, mid, post. split; [|split].
  - unfold braced. simpl. now rewrite Pattern.append_assoc.
  - reflexivity.
  - apply (Pattern.match_object_braced "" mid ""); reflexivity.
Qed.

Lemma match_object_is_braced_witness :
  match_object "{a} and {b}" = Some "{a} and {b}".
Proof.
  destruct (match_object_is_braced "see {a} and {b}." "{a} and {b}" eq_refl)
    as (pre & mid & post & _ & _ & H).
  exact H.
Defined.

(** X8: the text given to the URL constructor always begins with "http",
    and preparing it twice changes nothing: an input that already carries
    the prefix is normalized as the input without it is. *)
Theorem absolute_idempotent (w : World) (s : string) :
  String.prefix "http" (absolute s) = true /\
  absolute (absolute s) = absolute s /\
  normalize w (absolute s) = normalize w s.
Proof.
  assert (String.prefix "http" (absolute s) = true) as P.
  { unfold absolute. destruct (String.prefix "http" s) eqn:E;
      [exact E | reflexivity]. }
  assert (absolute (absolute s) = absolute s) as I
    by (unfold absolute at 1; now rewrite P).
  repeat split; try assumption. unfold normalize. now rewrite I.
Qed.

(** ** The capture *)

Section CaptureRuns.

Variable w : World.

Lemma await_ok (c : call) (st : State) :
  fault w (trace st) c = None ->
  await w c st = (effect c (record c st), inr tt).
Proof. intros H. unfold await. now rewrite H. Qed.

Lemma await_inv (c : call) (st st' : State) (u : unit) :
  await w c st = (st', inr u) -> st' = effect c (record c st).
Proof.
  unfold await. destruct (fault w (trace st) c); [discriminate|].
  now intros [= <-].
Qed.

Lemma bind_inv {A B : Type} (m : M A) (k : A -> M B)
    (st st' : State) (b : B) :
  bind m k st = (st', inr b) ->
  exists st1 a, m st = (st1, inr a) /\ k a st1 = (st', inr b).
Proof.
  unfold bind. destruct (m st) as [st1 [e|a]]; [discriminate|].
  intros H. now exists st1, a.
Qed.

Lemma try_finally_inv {A : Type} (body : M A) (cleanup : M unit)
    (st st' : State) (a : A) :
  try_finally body cleanup st = (st', inr a) ->
  exists st1, body st = (st1, inr a) /\ cleanup st1 = (st', inr tt).
Proof.
  unfold try_finally. destruct (body st) as [st1 r].
  destruct (cleanup st1) as [st2 [e|[]]] eqn:C; [discriminate|].
  intros [= <- ->]. now exists st1.
Qed.

Lemma extended_nil (st : State) : extended st [] = st.
Proof. destruct st. unfold extended. simpl. now rewrite app_nil_r. Qed.

Lemma extended_app (st : State) (a b : list call) :
  extended (extended st a) b = extended st (a ++ b).
Proof. unfold extended. simpl. now rewrite app_assoc. Qed.

Lemma await_neutral_inv (c : call) (st st' : State) (u : unit) :
  on_handle c = false ->
  await w c st = (st', inr u) -> st' = extended st [c].
Proof.
  intros N H. apply await_inv in H. subst st'.
  destruct c; try discriminate; reflexivity.
Qed.

Lemma scroll_inv (offsets : list Z) (st st' : State) (u : unit) :
  scroll_through w offsets st = (st', inr u) ->
  st' = extended st (sweep_calls offsets).
Proof.
  revert st. induction offsets as [|y rest IH]; intros st; simpl.
  - intros [= <-]. now rewrite extended_nil.
  - intros H. apply bind_inv in H as (st1 & u1 & H1 & H).
    apply bind_inv in H as (st2 & u2 & H2 & H).
    apply await_neutral_inv in H1; [|reflexivity].
    apply await_neutral_inv in H2; [|reflexivity].
    apply IH in H. subst. now rewrite !extended_app.
Qed.

Lemma capture_page_inv (url : string) (st st' : State) (shot : Buffer) :
  capture_page w url st = (st', inr shot) ->
  shot = png w /\ st' = extended st (page_calls w url).
Proof.
  unfold capture_page. intros H.
  apply bind_inv in H as (s1 & u1 & H1 & H).
  apply bind_inv in H as (s2 & u2 & H2 & H).
  apply bind_inv in H as (s3 & u3 & H3 & H).
  apply bind_inv in H as (s4 & u4 & H4 & H).
  apply bind_inv in H as (s5 & u5 & H5 & H).
  apply bind_inv in H as (s6 & u6 & H6 & H).
  apply bind_inv in H as (s7 & u7 & H7 & H).
  apply await_neutral_inv in H1, H2, H3, H5, H6, H7; try reflexivity.
  apply scroll_inv in H4. injection H as <- <-. subst.
  split; [reflexivity|]. rewrite !extended_app. reflexivity.
Qed.

End CaptureRuns.

Section QuietCapture.

Variable w : World.
Hypothesis no_faults : quiet w.

Lemma await_quiet (c : call) (st : State) :
  await w c st = (effect c (record c st), inr tt).
Proof. apply await_ok, no_faults. Qed.

Lemma scroll_quiet (offsets : list Z) (st : State) :
  scroll_through w offsets st = (extended st (sweep_calls offsets), inr tt).
Proof.
  revert st. induction offsets as [|y rest IH]; intros st; simpl.
  - unfold ret. now rewrite extended_nil.
  - unfold bind. rewrite !await_quiet. cbn [effect]. rewrite IH.
    f_equal. unfold extended, record. cbn [trace browsers pages].
    now rewrite <- !app_assoc.
Qed.

Lemma capture_page_quiet (url : string) (st : State) :
  capture_page w url st = (extended st (page_calls w url), inr (png w)).
Proof.
  unfold capture_page, bind. rewrite !await_quiet. cbn [effect].
  rewrite scroll_quiet. rewrite !await_quiet. cbn [effect]. unfold ret.
  f_equal. unfold extended, record, page_calls. cbn [trace browsers pages].
  f_equal. rewrite <- !app_assoc. reflexivity.
Qed.

End QuietCapture.

(** X9: when no Playwright call rejects, captureScreenshot returns the
    bytes of the screenshot after exactly these calls: launch, new page,
    navigation, the wait of 600 ms, the reading of the height, the scroll
    sweep (a scroll and a wait of 200 ms per offset), the scroll back to
    the top, the wait of 800 ms, the screenshot, page close, browser
    close; and no browser or page is left open. *)
Theorem captureScreenshot_quiet (w : World) (url : string) (st : State) :
  quiet w -> browsers st = 0%nat -> pages st = 0%nat ->
  captureScreenshot w url st
  = ({| trace := trace st ++ capture_calls w url;
        browsers := 0;
        pages := 0 |}, inr (png w)).
Proof.
  intros Q B P.
  rewrite (capture_opened w url st (Q _ _) (Q _ _)).
  unfold try_finally. rewrite (capture_page_quiet w Q).
  rewrite (release_closes w _ (fun h => Q h _) (fun h => Q h _)).
  unfold extended, capture_calls. cbn [trace browsers pages]. rewrite B.
  f_equal. f_equal. now rewrite <- !app_assoc.
Qed.

Lemma captureScreenshot_quiet_witness :
  trace (fst (captureScreenshot
                (Sample.world None Sample.no_fault (inl (ErrorObj "unused")))
                "https://example.com/" initial))
  = [Launch true;
     NewPage 1600 1000 (3 # 2);
     Goto "https://example.com/" "networkidle" 30000;
     WaitForTimeout 600;
     Evaluate "document.body.scrollHeight";
     Evaluate "window.scrollTo(0, 0)"; WaitForTimeout 200;
     Evaluate "window.scrollTo(0, 800)"; WaitForTimeout 200;
     Evaluate "window.scrollTo(0, 1600)"; WaitForTimeout 200;
     Evaluate "window.scrollTo(0, 0)";
     WaitForTimeout 800;
     Screenshot "png" true;
     PageClose;
     BrowserClose].
Proof.
  rewrite (captureScreenshot_quiet
             (Sample.world None Sample.no_fault (inl (ErrorObj "unused")))
             "https://example.com/" initial);
    try reflexivity.
  intros history c. reflexivity.
Defined.

Lemma capture_returned
    (w : World) (url : string) (st st' : State) (shot : Buffer) :
  captureScreenshot w url st = (st', inr shot) ->
  shot = png w /\
  trace st' = (trace st ++ capture_calls w url)%list /\
  browsers st' = browsers st /\
  pages st' = 0%nat.
Proof.
  unfold captureScreenshot. intros H.
  apply bind_inv in H as (s1 & u1 & H1 & H).
  apply bind_inv in H as (s2 & u2 & H2 & H).
  apply try_finally_inv in H as (s3 & H3 & H).
  unfold release in H.
  apply bind_inv in H as (s4 & u4 & H4 & H).
  apply await_inv in H1, H2, H4, H. apply capture_page_inv in H3 as [-> H3].
  subst. split; [reflexivity|].
  unfold extended, capture_calls. cbn [effect record trace browsers pages].
  repeat split. now rewrite <- !app_assoc.
Qed.

(** X10: in any world, when captureScreenshot returns, it returns the
    bytes of the screenshot, every call of the capture was made, in order
    and none twice, the last two being page close and browser close, and
    the browser it launched is closed. *)
Theorem captureScreenshot_returned
    (w : World) (url : string) (st st' : State) (shot : Buffer) :
  captureScreenshot w url st = (st', inr shot) ->
  shot = png w /\
  trace st' = (trace st ++ capture_calls w url)%list /\
  browsers st' = browsers st /\
  pages st' = 0%nat.
Proof. apply capture_returned. Qed.

Lemma captureScreenshot_returned_witness :
  browsers (fst (captureScreenshot
                   (Sample.world None Sample.no_fault (inl (ErrorObj "unused")))
                   "https://example.com/" initial)) = 0%nat.
Proof.
  refine (proj1 (proj2 (proj2
            (captureScreenshot_returned
               (Sample.world None Sample.no_fault (inl (ErrorObj "unused")))
               "https://example.com/" initial _ _ _)))).
  vm_compute. reflexivity.
Defined.

Lemma capture_no_launch
    (w : World) (url : string) (st : State) (e : thrown) :
  fault w (trace st) (Launch true) = Some e ->
  captureScreenshot w url st
  = ({| trace := trace st ++ [Launch true];
        browsers := browsers st;
        pages := pages st |}, inl e).
Proof.
  intros H. unfold captureScreenshot, bind, await. now rewrite H.
Qed.

(** X11: when [chromium.launch] rejects, its error is propagated at once
    and the handler replies 500 with its message: no other Playwright
    call is made, the critique service is not requested, and nothing is
    open. *)
Theorem launch_rejected
    (w : World) (fields : object) (s normalized key : string) (e : thrown) :
  Js.lookup "url" fields = Some (VStr s) -> s <> "" ->
  normalize w s = Some normalized ->
  configured_key w = Some key ->
  fault w [NewURL (absolute s)] (Launch true) = Some e ->
  captureScreenshot w normalized (record (NewURL (absolute s)) initial)
  = ({| trace := [NewURL (absolute s); Launch true];
        browsers := 0; pages := 0 |}, inl e) /\
  analyze w (VObj fields) initial
  = ({| trace := [NewURL (absolute s); Launch true];
        browsers := 0; pages := 0 |},
     inr {| code := 500; sent := VObj [("error", VStr (describe e))] |}).
Proof.
  intros U N V K L.
  pose proof (capture_no_launch w normalized
                (record (NewURL (absolute s)) initial) e L) as C.
  split; [exact C|].
  rewrite (analyze_pipeline w fields s normalized key U N V K).
  now rewrite (pipeline_no_capture w key normalized _ _ e C).
Qed.

Lemma launch_rejected_witness :
  analyze
    (Sample.world (Some "sk-or-1")
       (fun _ c => match c with
                   | Launch _ => Some (ErrorObj "Executable doesn't exist")
                   | _ => None
                   end)
       (inl (ErrorObj "unused")))
    (Sample.request "example.com") initial
  = ({| trace := [NewURL "https://example.com"; Launch true];
        browsers := 0; pages := 0 |},
     inr {| code := 500;
            sent := VObj [("error", VStr "Executable doesn't exist")] |}).
Proof.
  refine (proj2 (launch_rejected
                   (Sample.world (Some "sk-or-1")
                      (fun _ c =>
                         match c with
                         | Launch _ => Some (ErrorObj "Executable doesn't exist")
                         | _ => None
                         end)
                      (inl (ErrorObj "unused")))
                   [("url", VStr "example.com")] "example.com"
                   "https://example.com/" "sk-or-1"
                   (ErrorObj "Executable doesn't exist")
                   eq_refl _ eq_refl eq_refl eq_refl)).
  discriminate.
Defined.

(** X12: when [page.close()] rejects in the [finally] block,
    [browser.close()] is not called: the error of [page.close()] is what
    captureScreenshot propagates, whatever the [try] block did, and the
    browser and the page stay open. *)
Theorem captureScreenshot_page_close_rejects
    (w : World) (url : string) (st : State) (e : thrown) :
  fault w (trace st) (Launch true) = None ->
  fault w (trace st ++ [Launch true]) (NewPage 1600 1000 (3 # 2)) = None ->
  (forall history, fault w history PageClose = Some e) ->
  snd (captureScreenshot w url st) = inl e /\
  browsers (fst (captureScreenshot w url st)) = S (browsers st) /\
  pages (fst (captureScreenshot w url st)) = S (pages st) /\
  exists calls,
    trace (fst (captureScreenshot w url st))
    = (trace st ++ [Launch true; NewPage 1600 1000 (3 # 2)] ++ calls
         ++ [PageClose])%list /\
    ~ In BrowserClose calls.
Proof.
  intros HL HN HP. rewrite (capture_opened w url st HL HN).
  set (st1 := {| trace := (trace st ++ [Launch true])
                            ++ [NewPage 1600 1000 (3 # 2)];
                 browsers := S (browsers st);
                 pages := S (pages st) |}).
  destruct (neutral_capture_page w url st1) as (Eb & Ep & calls & Et & Hc).
  unfold try_finally.
  destruct (capture_page w url st1) as [st2 r]. simpl in Eb, Ep, Et.
  rewrite (release_page_close_rejects w st2 e (HP _)).
  cbn [fst snd record trace browsers pages].
  split; [reflexivity|]. split; [exact Eb|]. split; [exact Ep|].
  exists calls. split.
  - rewrite Et. unfold st1. cbn [trace]. now rewrite <- !app_assoc.
  - intros I. rewrite Forall_forall in Hc. now apply Hc in I.
Qed.

Lemma captureScreenshot_page_close_rejects_witness :
  snd (captureScreenshot
         (Sample.world None
            (fun _ c => match c with
                        | PageClose => Some (ErrorObj "Target closed")
                        | _ => None
                        end)
            (inl (ErrorObj "unused")))
         "https://example.com/" initial)
  = inl (ErrorObj "Target closed").
Proof.
  apply (captureScreenshot_page_close_rejects
           (Sample.world None
              (fun _ c => match c with
                          | PageClose => Some (ErrorObj "Target closed")
                          | _ => None
                          end)
              (inl (ErrorObj "unused")))
           "https://example.com/" initial (ErrorObj "Target closed")).
  - reflexivity.
  - reflexivity.
  - intros history. reflexivity.
Defined.

(** ** The calls of a request *)

Section Adds.

Variable w : World.
Variable f : call -> bool.

Lemma adds_ret {A : Type} (a : A) : adds_only f (ret a).
Proof.
  intros st. exists []. split; [|constructor]. simpl. now rewrite app_nil_r.
Qed.

Lemma adds_await (c : call) : f c = true -> adds_only f (await w c).
Proof.
  intros H st. exists [c]. split; [|now repeat constructor].
  unfold await. destruct (fault w (trace st) c); [reflexivity|].
  destruct c; reflexivity.
Qed.

Lemma adds_bind {A B : Type} (m : M A) (k : A -> M B) :
  adds_only f m -> (forall a, adds_only f (k a)) -> adds_only f (bind m k).
Proof.
  intros Hm Hk st. unfold bind.
  destruct (Hm st) as (added & Ht & Hf).
  destruct (m st) as [st1 [e|a]]; simpl in *.
  - now exists added.
  - destruct (Hk a st1) as (added' & Ht' & Hf').
    exists (added ++ added')%list. split.
    + now rewrite Ht', Ht, app_assoc.
    + apply Forall_app. now split.
Qed.

Lemma adds_try_finally {A : Type} (body : M A) (cleanup : M unit) :
  adds_only f body -> adds_only f cleanup ->
  adds_only f (try_finally body cleanup).
Proof.
  intros Hb Hc st. unfold try_finally.
  destruct (Hb st) as (added & Ht & Hf).
  destruct (body st) as [st1 r]; simpl in *.
  destruct (Hc st1) as (added' & Ht' & Hf').
  exists (added ++ added')%list. split.
  - destruct (cleanup st1) as [st2 [e|u]]; simpl in *;
      now rewrite Ht', Ht, app_assoc.
  - apply Forall_app. now split.
Qed.

Hypothesis f_evaluate : forall script, f (Evaluate script) = true.
Hypothesis f_wait : forall ms, f (WaitForTimeout ms) = true.

Lemma adds_scroll (offsets : list Z) : adds_only f (scroll_through w offsets).
Proof.
  induction offsets as [|y rest IH]; simpl.
  - apply adds_ret.
  - apply adds_bind; [now apply adds_await|]. intros _.
    apply adds_bind; [now apply adds_await|]. intros _. exact IH.
Qed.

End Adds.

Lemma adds_after_launch (w : World) (url : string) :
  adds_only after_launch
    (bind (await w (NewPage 1600 1000 (3 # 2)))
       (fun _ => try_finally (capture_page w url) (release w))).
Proof.
  apply adds_bind; [now apply adds_await|]. intros _.
  apply adds_try_finally.
  - unfold capture_page.
    repeat (apply adds_bind;
            [first [now apply adds_await | now apply adds_scroll]|];
            intros _).
    apply adds_ret.
  - unfold release. apply adds_bind; [now apply adds_await|]. intros _.
    now apply adds_await.
Qed.

(** Whatever captureScreenshot does, it launches once, first. *)
Lemma capture_trace (w : World) (url : string) (st : State) :
  exists rest,
    trace (fst (captureScreenshot w url st))
    = (trace st ++ Launch true :: rest)%list /\
    Forall (fun c => after_launch c = true) rest.
Proof.
  unfold captureScreenshot, bind at 1. unfold await at 1.
  destruct (fault w (trace st) (Launch true)) as [e|].
  - exists []. split; [reflexivity | constructor].
  - destruct (adds_after_launch w url (effect (Launch true)
                                         (record (Launch true) st)))
      as (rest & Ht & Hf).
    exists rest. split; [|exact Hf].
    rewrite Ht. cbn [effect record trace]. now rewrite <- app_assoc.
Qed.

Section Runs.

Variable w : World.

(** The two ways the [try] block of the handler runs: the capture throws
    and nothing follows, or the capture returns and the critique is
    requested. *)
Lemma pipeline_runs (key normalized : string) (st : State) :
  (exists st1 e,
     captureScreenshot w normalized st = (st1, inl e) /\
     pipeline w key normalized st = (st1, inl e)) \/
  (exists st1 shot rest,
     captureScreenshot w normalized st = (st1, inr shot) /\
     fst (pipeline w key normalized st)
     = extended st1
         (Fetch (critique_request w key normalized (base64 w shot)) :: rest) /\
     after_fetch rest).
Proof.
  destruct (captureScreenshot w normalized st) as [st1 [e|shot]] eqn:C.
  - left. exists st1, e. split; [reflexivity|].
    now apply pipeline_no_capture.
  - right. exists st1, shot.
    destruct (fetch w (critique_request w key normalized (base64 w shot)))
      as [e|response] eqn:F.
    + exists []. split; [reflexivity|].
      rewrite (pipeline_no_answer w key normalized st st1 shot C e F).
      split; [reflexivity | now left].
    + destruct (ok response) eqn:O.
      * exists [ResponseJson]. split; [reflexivity|].
        rewrite (pipeline_answered w key normalized st st1 shot C response F O).
        split; [|right; now right].
        unfold extended, record. cbn [fst trace browsers pages].
        now rewrite <- app_assoc.
      * exists [ResponseText]. split; [reflexivity|].
        rewrite (pipeline_upstream_error w key normalized st st1 shot C
                   response F O).
        split; [|right; now left].
        unfold extended, record. cbn [fst trace browsers pages].
        now rewrite <- app_assoc.
Qed.

(** The three ways the handler runs: it stops before the URL constructor,
    it stops after it, or it goes through the [try] block. *)
Lemma analyze_runs (req_body : value) (st : State) :
  fst (analyze w req_body st) = st \/
  (exists s, fst (analyze w req_body st) = record (NewURL (absolute s)) st) \/
  (exists s key normalized,
     fst (analyze w req_body st)
     = fst (pipeline w key normalized (record (NewURL (absolute s)) st))).
Proof.
  unfold analyze, bind, lift.
  destruct (destructure_url req_body) as [e|u]; [now left|].
  destruct u; try now left.
  destruct (negb (Js.Boolean (VStr s))); [now left|].
  unfold note. right.
  destruct (normalize w s) as [normalized|]; [|left; now exists s].
  destruct (configured_key w) as [key|]; [|left; now exists s].
  right. exists s, key, normalized. rewrite try_catch_on_error.
  destruct (pipeline w key normalized (record (NewURL (absolute s)) st))
    as [st1 [e|r]]; reflexivity.
Qed.

End Runs.

Lemma count_app (f : call -> bool) (a b : list call) :
  count f (a ++ b) = (count f a + count f b)%nat.
Proof. unfold count. now rewrite filter_app, length_app. Qed.

Lemma count_cons (f : call -> bool) (c : call) (l : list call) :
  count f (c :: l) = ((if f c then 1 else 0) + count f l)%nat.
Proof. unfold count. simpl. now destruct (f c). Qed.

Lemma count_nil (f : call -> bool) : count f [] = 0%nat.
Proof. reflexivity. Qed.

Lemma count_none (f g : call -> bool) (l : list call) :
  (forall c, g c = true -> f c = false) ->
  Forall (fun c => g c = true) l -> count f l = 0%nat.
Proof.
  intros H F. unfold count. induction F as [|c l Hc _ IH]; [reflexivity|].
  simpl. now rewrite (H c Hc).
Qed.

Lemma count_after_fetch (f : call -> bool) (rest : list call) :
  f ResponseText = false -> f ResponseJson = false ->
  after_fetch rest -> count f rest = 0%nat.
Proof.
  intros HT HJ [->|[->| ->]]; unfold count; simpl; now rewrite ?HT, ?HJ.
Qed.

(** X13: nothing is tried twice: in every run of the handler the URL
    constructor is called at most once, the browser is launched at most
    once and the critique service is requested at most once. *)
Theorem one_attempt_each (w : World) (req_body : value) :
  (count is_new_url (trace (fst (analyze w req_body initial))) <= 1)%nat /\
  (count is_launch (trace (fst (analyze w req_body initial))) <= 1)%nat /\
  (count is_fetch (trace (fst (analyze w req_body initial))) <= 1)%nat.
Proof.
  destruct (analyze_runs w req_body initial) as [-> | [[s ->] | (s & key & n & ->)]].
  - repeat split; apply Nat.le_0_l.
  - unfold count. simpl. repeat split; lia.
  - set (st0 := record (NewURL (absolute s)) initial).
    destruct (capture_trace w n st0) as (rest & Ht & Hr).
    assert (count is_new_url rest = 0 /\ count is_launch rest = 0 /\
            count is_fetch rest = 0)%nat as (R1 & R2 & R3).
    { repeat split; apply (count_none _ after_launch); try exact Hr;
        intros [] H; try reflexivity; discriminate. }
    destruct (pipeline_runs w key n st0)
      as [(st1 & e & C & ->) | (st1 & shot & tail & C & -> & T)];
      rewrite C in Ht; cbn [fst] in Ht |- *.
    + rewrite Ht. unfold st0. cbn [record trace initial].
      repeat rewrite ?count_app, ?count_cons. rewrite R1, R2, R3.
      cbn. repeat split; lia.
    + unfold extended. cbn [trace]. rewrite Ht.
      unfold st0. cbn [record trace initial].
      repeat rewrite ?count_app, ?count_cons. rewrite R1, R2, R3.
      rewrite !(count_after_fetch _ tail) by (reflexivity || exact T).
      cbn. repeat split; lia.
Qed.



(** What the [try] block returns, when it returns. *)
Lemma pipeline_returned (w : World) (key normalized : string)
    (st st' : State) (r : Reply) :
  pipeline w key normalized st = (st', inr r) ->
  exists st1 raw a,
    captureScreenshot w normalized st = (st1, inr (png w)) /\
    sanitizeResult raw = inr a /\
    browsers st' = browsers st1 /\ pages st' = pages st1 /\
    r = {| code := 200;
           sent := VObj [("url", VStr normalized);
                         ("screenshotBase64",
                           VStr (data_url (base64 w (png w))));
                         ("analysis", a)] |}.
Proof.
  destruct (captureScreenshot w normalized st) as [st1 [e|shot]] eqn:C.
  - rewrite (pipeline_no_capture w key normalized st st1 e C). discriminate.
  - destruct (capture_returned w normalized st st1 shot C)
      as (-> & _).
    destruct (fetch w (critique_request w key normalized (base64 w (png w))))
      as [e|response] eqn:F.
    + rewrite (pipeline_no_answer w key normalized st st1 _ C e F).
      discriminate.
    + destruct (ok response) eqn:O.
      * rewrite (pipeline_answered w key normalized st st1 _ C response F O).
        destruct (json response) as [e|data]; [discriminate|].
        destruct (Js.get data "choices") as [e|choices]; [discriminate|].
        destruct (safeParseJson (JSON_parse w) (model_text choices))
          as [e|a] eqn:S; [discriminate|].
        destruct (safeParseJson_inv _ _ _ S) as [raw R].
        intros [= <- <-]. exists st1, raw, a. repeat split. exact R.
      * rewrite (pipeline_upstream_error w key normalized st st1 _ C
                   response F O).
        destruct (text response); discriminate.
Qed.

(** X15: a reply 400 is sent before any work: no browser was launched and
    no request was made; at most the URL constructor was called; and its
    message is "url is required" or "Invalid URL". *)
Theorem bad_request_before_any_work
    (w : World) (req_body : value) (st : State) (r : Reply) :
  analyze w req_body initial = (st, inr r) -> code r = 400 ->
  (trace st = [] /\ sent r = VObj [("error", VStr "url is required")] \/
   exists s,
     trace st = [NewURL (absolute s)] /\
     sent r = VObj [("error", VStr "Invalid URL")]) /\
  browsers st = 0%nat /\ pages st = 0%nat.
Proof.
  unfold analyze, bind, lift.
  destruct (destructure_url req_body) as [e|u]; [discriminate|].
  destruct u; try (intros [= <- <-] _; split; [now left | now split]).
  destruct (negb (Js.Boolean (VStr s)));
    [intros [= <- <-] _; split; [now left | now split]|].
  unfold note.
  destruct (normalize w s) as [normalized|];
    [|intros [= <- <-] _; split; [right; now exists s | now split]].
  destruct (configured_key w) as [key|]; [|intros [= _ <-]; discriminate].
  rewrite try_catch_on_error.
  destruct (pipeline w key normalized (record (NewURL (absolute s)) initial))
    as [st1 [e|r1]] eqn:P.
  - intros [= _ <-]. discriminate.
  - intros [= _ <-].
    destruct (pipeline_returned w key normalized _ _ _ P)
      as (s1 & raw & a & _ & _ & _ & _ & ->).
    discriminate.
Qed.

Lemma bad_request_before_any_work_witness :
  browsers (fst (analyze
                   (Sample.world (Some "sk-or-1") Sample.no_fault
                      (inl (ErrorObj "unused")))
                   (Sample.request "not a url") initial)) = 0%nat.
Proof.
  refine (proj1 (proj2
            (bad_request_before_any_work
               (Sample.world (Some "sk-or-1") Sample.no_fault
                  (inl (ErrorObj "unused")))
               (Sample.request "not a url") _
               (error_reply 400 "Invalid URL") eq_refl eq_refl))).
Defined.

(** X16: a reply 200 carries the normalized URL, the screenshot as a data
    URL of type image/png, and an analysis that has the shape of a
    critique and that the sanitizer leaves as it is; and when it is sent
    the browser is closed. *)
Theorem whole_reply_is_sanitized
    (w : World) (req_body : value) (st : State) (r : Reply) :
  analyze w req_body initial = (st, inr r) -> code r = 200 ->
  exists normalized a,
    sent r = VObj [("url", VStr normalized);
                   ("screenshotBase64",
                     VStr ("data:image/png;base64," ++ base64 w (png w)));
                   ("analysis", a)] /\
    sanitized a /\ sanitizeResult a = inr a /\
    browsers st = 0%nat /\ pages st = 0%nat.
Proof.
  unfold analyze, bind, lift.
  destruct (destructure_url req_body) as [e|u]; [discriminate|].
  destruct u; try (intros [= _ <-]; discriminate).
  destruct (negb (Js.Boolean (VStr s))); [intros [= _ <-]; discriminate|].
  unfold note.
  destruct (normalize w s) as [normalized|]; [|intros [= _ <-]; discriminate].
  destruct (configured_key w) as [key|]; [|intros [= _ <-]; discriminate].
  rewrite try_catch_on_error.
  destruct (pipeline w key normalized (record (NewURL (absolute s)) initial))
    as [st1 [e|r1]] eqn:P.
  - intros [= _ <-]. discriminate.
  - intros [= <- <-] _.
    destruct (pipeline_returned w key normalized _ _ _ P)
      as (s1 & raw & a & C & R & Eb & Ep & ->).
    destruct (capture_returned w normalized _ s1 _ C)
      as (_ & _ & Cb & Cp).
    exists normalized, a. split; [reflexivity|].
    split; [exact (sanitizeResult_shape raw a R)|].
    split; [exact (sanitizeResult_fixed raw a R)|].
    split; [now rewrite Eb, Cb | now rewrite Ep, Cp].
Qed.

Lemma whole_reply_is_sanitized_witness :
  exists st r,
    analyze
      (Sample.world (Some "sk-or-1") Sample.no_fault
         (Sample.answered 200 ""
            (VObj [("choices",
                     VArr [VObj [("message",
                                   VObj [("content", VStr "{}")])]])])))
      (Sample.request "example.com") initial = (st, inr r) /\
    exists normalized a,
      sent r = VObj [("url", VStr normalized);
                     ("screenshotBase64",
                       VStr "data:image/png;base64,iVBORw==");
                     ("analysis", a)] /\
      sanitized a.
Proof.
  eexists. eexists. split; [vm_compute; reflexivity|].
  destruct (whole_reply_is_sanitized
              (Sample.world (Some "sk-or-1") Sample.no_fault
                 (Sample.answered 200 ""
                    (VObj [("choices",
                             VArr [VObj [("message",
                                           VObj [("content", VStr "{}")])]])])))
              (Sample.request "example.com") _ _ eq_refl eq_refl)
    as (normalized & a & E & S & _).
  exists normalized, a. split; [exact E | exact S].
Defined.

(** X17: when the content of the first choice is there but is not a
    string (a number, a list of parts, an object), safeParseJson throws
    the TypeError of calling [match] on it and the reply is 500 with that
    message. *)
Theorem content_not_a_string
    (w : World) (fields : object) (s normalized key : string)
    (st1 : State) (shot : Buffer) (response : Response)
    (data choices : value) :
  Js.lookup "url" fields = Some (VStr s) -> s <> "" ->
  normalize w s = Some normalized ->
  configured_key w = Some key ->
  captureScreenshot w normalized (record (NewURL (absolute s)) initial)
  = (st1, inr shot) ->
  fetch w (critique_request w key normalized (base64 w shot)) = inr response ->
  ok response = true ->
  json response = inr data ->
  Js.get data "choices" = inr choices ->
  Js.is_string (model_text choices) = false ->
  snd (analyze w (VObj fields) initial)
  = inr {| code := 500;
           sent := VObj [("error", VStr "content.match is not a function")] |}.
Proof.
  intros U N V K C F O J G S.
  rewrite (analyze_answered w fields s normalized key st1 shot response
             U N V K C F O).
  rewrite J, G. cbn [snd]. revert S. unfold model_text, Js.coalesce.
  destruct (Js.opt_get (Js.opt_get (Js.opt_first choices) "message") "content");
    cbn [Js.nullish Js.is_string]; try discriminate; reflexivity.
Qed.

Lemma content_not_a_string_witness :
  snd (analyze
         (Sample.world (Some "sk-or-1") Sample.no_fault
            (Sample.answered 200 ""
               (VObj [("choices",
                        VArr [VObj [("message",
                                      VObj [("content",
                                              VArr [VObj [("type", VStr "text");
                                                          ("text", VStr "{}")]])])]])])))
         (Sample.request "example.com") initial)
  = inr {| code := 500;
           sent := VObj [("error", VStr "content.match is not a function")] |}.
Proof.
  eapply (content_not_a_string _ [("url", VStr "example.com")] "example.com"
            "https://example.com/" "sk-or-1").
  1: reflexivity.
  1: discriminate.
  all: reflexivity.
Defined.

(** X18: when the critique service answers with a success status and a
    body that is not JSON, the reply is 500 with the error of
    [response.json()]; when the body is the JSON value null, the reply is
    500 with the TypeError of reading [choices] of null. *)
Theorem upstream_body_unusable
    (w : World) (fields : object) (s normalized key : string)
    (st1 : State) (shot : Buffer) (response : Response) :
  Js.lookup "url" fields = Some (VStr s) -> s <> "" ->
  normalize w s = Some normalized ->
  configured_key w = Some key ->
  captureScreenshot w normalized (record (NewURL (absolute s)) initial)
  = (st1, inr shot) ->
  fetch w (critique_request w key normalized (base64 w shot)) = inr response ->
  ok response = true ->
  (forall e, json response = inl e ->
     snd (analyze w (VObj fields) initial)
     = inr {| code := 500; sent := VObj [("error", VStr (describe e))] |}) /\
  (json response = inr VNull ->
     snd (analyze w (VObj fields) initial)
     = inr {| code := 500;
              sent := VObj [("error",
                              VStr "Cannot read properties of null (reading 'choices')")] |}).
Proof.
  intros U N V K C F O.
  rewrite (analyze_answered w fields s normalized key st1 shot response
             U N V K C F O).
  split.
  - intros e ->. reflexivity.
  - intros ->. reflexivity.
Qed.

Lemma upstream_body_unusable_witness :
  snd (analyze
         (Sample.world (Some "sk-or-1") Sample.no_fault
            (Sample.answered 200 "null" VNull))
         (Sample.request "example.com") initial)
  = inr {| code := 500;
           sent := VObj [("error",
                           VStr "Cannot read properties of null (reading 'choices')")] |}.
Proof.
  refine (proj2 (upstream_body_unusable
                   (Sample.world (Some "sk-or-1") Sample.no_fault
                      (Sample.answered 200 "null" VNull))
                   [("url", VStr "example.com")] "example.com"
                   "https://example.com/" "sk-or-1" _ _ _
                   eq_refl _ eq_refl eq_refl eq_refl eq_refl eq_refl)
            eq_refl).
  discriminate.
Defined.

(** ** The page *)

Lemma number_le_int (a b : Z) : number_le (int a) (int b) = (a <=? b).
Proof.
  unfold number_le, int, Qle_bool, inject_Z. cbn [Qnum Qden].
  now rewrite !Z.mul_1_r.
Qed.

(** X19: the colour of the bar and the colour of the figure always belong
    to the same band; an integer score is in the rose band up to 3, in the
    amber band from 4 to 6 and in the emerald band from 7; a score that is
    NaN falls in the emerald band. *)
Theorem score_bands :
  (forall score,
     (Page.scoreClass score = "bg-rose-500 shadow-rose-500/30" /\
      Page.scoreTextClass score = "text-rose-300") \/
     (Page.scoreClass score = "bg-amber-400 shadow-amber-400/30" /\
      Page.scoreTextClass score = "text-amber-200") \/
     (Page.scoreClass score = "bg-emerald-400 shadow-emerald-400/30" /\
      Page.scoreTextClass score = "text-emerald-300")) /\
  (forall n,
     (n <= 3 -> Page.scoreTextClass (int n) = "text-rose-300") /\
     (4 <= n <= 6 -> Page.scoreTextClass (int n) = "text-amber-200") /\
     (7 <= n -> Page.scoreTextClass (int n) = "text-emerald-300")) /\
  Page.scoreTextClass NaN = "text-emerald-300".
Proof.
  split; [|split; [|reflexivity]].
  - intros score. unfold Page.scoreClass, Page.scoreTextClass.
    destruct (number_le score (int 3)); [now left|].
    destruct (number_le score (int 6)); [right; now left | right; now right].
  - intros n. unfold Page.scoreTextClass. rewrite !number_le_int.
    destruct (Z.leb_spec n 3), (Z.leb_spec n 6); repeat split; intros;
      try reflexivity; lia.
Qed.

Lemma score_bands_witness : Page.scoreTextClass (int 5) = "text-amber-200".
Proof. apply (proj1 (proj2 score_bands) 5). lia. Defined.

(** X20: at any time from the epoch on, the loading message is one of the
    four lines, and it comes back every four seconds. *)
Theorem loadingMessage_in_bounds (now : Z) :
  0 <= now ->
  (exists line,
     Page.loadingMessage now = Some line /\ In line Page.loadingLines) /\
  Page.loadingMessage (now + 4000) = Page.loadingMessage now.
Proof.
  intros H. unfold Page.loadingMessage.
  change (Z.of_nat (List.length Page.loadingLines)) with 4.
  assert (0 <= now / 1000) as Q by (apply Z.div_pos; lia).
  replace ((now + 4000) / 1000) with (now / 1000 + 4)
    by (replace (now + 4000) with (now + 4 * 1000) by lia;
        now rewrite Z.div_add by lia).
  rewrite !Z.rem_mod_nonneg by lia.
  replace (now / 1000 + 4) with (now / 1000 + 1 * 4) by lia.
  rewrite Z.mod_add by lia. split; [|reflexivity].
  pose proof (Z.mod_pos_bound (now / 1000) 4 ltac:(lia)) as B.
  destruct (Z.ltb_spec ((now / 1000) mod 4) 0) as [L|_]; [lia|].
  assert ((now / 1000) mod 4 = 0 \/ (now / 1000) mod 4 = 1 \/
          (now / 1000) mod 4 = 2 \/ (now / 1000) mod 4 = 3)
    as [-> | [-> | [-> | ->]]] by lia;
    eexists; (split; [reflexivity|]); simpl; auto.
Qed.

Lemma loadingMessage_in_bounds_witness :
  Page.loadingMessage 1700000005123
  = Some "Sniffing out template crimes...".
Proof.
  destruct (proj1 (loadingMessage_in_bounds 1700000005123 ltac:(lia)))
    as (line & E & _).
  rewrite E. vm_compute in E. symmetry. exact E.
Defined.

Section PageSubmit.

Variable in_operator_message : value -> string.
Variable ToString : value -> string.

Lemma handleSubmit_returned (answer : thrown + Response) (v : Page.View)
    (payload : value) :
  Page.requested in_operator_message ToString answer = inr payload ->
  Page.handleSubmit in_operator_message ToString answer v
  = {| Page.url := Page.url v;
       Page.result := Page.held payload;
       Page.error := None;
       Page.isLoading := false;
       Page.copied := Page.copied v |}.
Proof. intros H. unfold Page.handleSubmit. now rewrite H. Qed.

Lemma handleSubmit_threw (answer : thrown + Response) (v : Page.View)
    (err : thrown) :
  Page.requested in_operator_message ToString answer = inl err ->
  Page.handleSubmit in_operator_message ToString answer v
  = {| Page.url := Page.url v;
       Page.result := None;
       Page.error := Some (describe err);
       Page.isLoading := false;
       Page.copied := Page.copied v |}.
Proof. intros H. unfold Page.handleSubmit. now rewrite H. Qed.

End PageSubmit.

Lemma requested_inv
    (in_operator_message ToString : value -> string)
    (answer : thrown + Response) (payload : value) :
  Page.requested in_operator_message ToString answer = inr payload ->
  exists response,
    answer = inr response /\ ok response = true /\
    json response = inr payload.
Proof.
  unfold Page.requested. destruct answer as [e|response]; [discriminate|].
  destruct (json response) as [e|p] eqn:J; [discriminate|].
  destruct (ok response) eqn:O; cbn [negb].
  - intros [= ->]. now exists response.
  - destruct (Page.has_error in_operator_message p) as [e|[|]];
      try discriminate.
    destruct (Js.get p "error"); discriminate.
Qed.

(** X21: however the request ends, when handleSubmit has run the page is
    no longer loading, the URL typed is kept, and the page never holds
    both a result and an error: either it shows an error and no result,
    or the answer had a success status and a JSON body, there is no error
    and the result is that body, which is no result when the body is
    null.  What an earlier submission left is gone. *)
Theorem handleSubmit_settles
    (in_operator_message ToString : value -> string)
    (answer : thrown + Response) (v : Page.View) :
  let v' := Page.handleSubmit in_operator_message ToString answer v in
  Page.isLoading v' = false /\
  Page.url v' = Page.url v /\
  (Page.result v' = None \/ Page.error v' = None) /\
  ((exists message, Page.result v' = None /\ Page.error v' = Some message) \/
   (exists response payload,
      answer = inr response /\ ok response = true /\
      json response = inr payload /\
      Page.error v' = None /\
      (payload <> VNull -> Page.result v' = Some payload) /\
      (payload = VNull -> Page.result v' = None))).
Proof.
  destruct (Page.requested in_operator_message ToString answer)
    as [err|payload] eqn:R; cbv zeta.
  - rewrite (handleSubmit_threw _ _ answer v err R). cbn.
    split; [reflexivity|]. split; [reflexivity|]. split; [now left|].
    left. now eexists.
  - rewrite (handleSubmit_returned _ _ answer v payload R). cbn.
    split; [reflexivity|]. split; [reflexivity|]. split; [now right|].
    right. destruct (requested_inv _ _ _ _ R) as (response & A & O & J).
    exists response, payload. repeat split; try assumption.
    + intros N. destruct payload; try reflexivity. now destruct N.
    + intros ->. reflexivity.
Qed.

(** A success whose body is the JSON value null leaves the page with
    neither a result nor an error. *)
Example handleSubmit_null_body :
  Page.handleSubmit (fun _ => "") (fun _ => "")
    (inr {| status := 200; text := inr "null"; json := inr VNull |})
    {| Page.url := "example.com"; Page.result := Some (VBool true);
       Page.error := Some "old"; Page.isLoading := false;
       Page.copied := false |}
  = {| Page.url := "example.com"; Page.result := None;
       Page.error := None; Page.isLoading := false;
       Page.copied := false |}.
Proof. reflexivity. Qed.

(** X22: the message the page shows when the request fails: the message of
    the error with which [fetch] or [response.json()] rejects; for an
    answer whose status is not a success, the [error] of its body when it
    is a string, and "Failed to analyze" when the body is an object or a
    list without [error]. *)
Theorem handleSubmit_message
    (in_operator_message ToString : value -> string) (v : Page.View) :
  (forall message,
     Page.error (Page.handleSubmit in_operator_message ToString
                   (inl (ErrorObj message)) v) = Some message) /\
  (forall response message,
     json response = inl (ErrorObj message) ->
     Page.error (Page.handleSubmit in_operator_message ToString
                   (inr response) v) = Some message) /\
  (forall response fields message,
     ok response = false ->
     json response = inr (VObj fields) ->
     Js.lookup "error" fields = Some (VStr message) ->
     Page.error (Page.handleSubmit in_operator_message ToString
                   (inr response) v) = Some message) /\
  (forall response payload,
     ok response = false ->
     json response = inr payload ->
     (exists fields, payload = VObj fields /\ Js.lookup "error" fields = None) \/
     (exists items, payload = VArr items) ->
     Page.error (Page.handleSubmit in_operator_message ToString
                   (inr response) v) = Some "Failed to analyze").
Proof.
  split; [|split; [|split]].
  - intros message. reflexivity.
  - intros response message J.
    rewrite (handleSubmit_threw _ _ _ v (ErrorObj message)); [reflexivity|].
    unfold Page.requested. now rewrite J.
  - intros response fields message O J L.
    rewrite (handleSubmit_threw _ _ _ v (ErrorObj message)); [reflexivity|].
    unfold Page.requested, Page.has_error, Js.get. now rewrite J, O, L.
  - intros response payload O J H.
    rewrite (handleSubmit_threw _ _ _ v (ErrorObj "Failed to analyze"));
      [reflexivity|].
    unfold Page.requested, Page.has_error. rewrite J, O.
    destruct H as [(fields & -> & L) | (items & ->)];
      [now rewrite L | reflexivity].
Qed.

Lemma handleSubmit_message_witness :
  Page.error
    (Page.handleSubmit (fun _ => "") (fun _ => "")
       (inr {| status := 502; text := inr "[]"; json := inr (VArr []) |})
       {| Page.url := "example.com"; Page.result := None;
          Page.error := None; Page.isLoading := false;
          Page.copied := false |})
  = Some "Failed to analyze".
Proof.
  apply (proj2 (proj2 (proj2 (handleSubmit_message _ _ _)))
           _ (VArr [])); try reflexivity.
  right. now exists [].
Defined.

(** X23: the page shows what the server replied: when the reply of the
    handler to the request of the page arrives as it was sent, after a
    reply 200 the page holds the whole reply as its result and no error,
    and after any other reply it shows the server's message and no
    result. *)
Theorem page_shows_reply
    (in_operator_message ToString : value -> string)
    (w : World) (v : Page.View) (st : State) (r : Reply)
    (response : Response) :
  analyze w (Page.submitted v) initial = (st, inr r) ->
  status response = code r ->
  json response = inr (sent r) ->
  let v' := Page.handleSubmit in_operator_message ToString (inr response) v in
  (code r = 200 ->
   Page.result v' = Some (sent r) /\ Page.error v' = None) /\
  (code r <> 200 ->
   exists message,
     sent r = VObj [("error", VStr message)] /\
     Page.result v' = None /\ Page.error v' = Some message).
Proof.
  intros A S J. cbv zeta.
  destruct (analyze_whole_or_error w _ _ _ _ A) as [u shot a _ | c message C].
  - cbn [code sent] in *. split; [|intros N; now destruct N].
    intros _.
    rewrite (handleSubmit_returned _ _ _ v
               (VObj [("url", VStr u); ("screenshotBase64", VStr shot);
                      ("analysis", a)])); [now split|].
    unfold Page.requested, ok. now rewrite J, S.
  - cbn [code sent error_reply] in *.
    split; [intros E; destruct C; lia|]. intros _.
    exists message. split; [reflexivity|].
    rewrite (handleSubmit_threw _ _ _ v (ErrorObj message)); [now split|].
    unfold Page.requested, ok. rewrite J, S.
    destruct C as [-> | ->]; reflexivity.
Qed.

Lemma page_shows_reply_witness :
  Page.error
    (Page.handleSubmit (fun _ => "") (fun _ => "")
       (inr {| status := 400;
               text := inr "";
               json := inr (VObj [("error", VStr "url is required")]) |})
       {| Page.url := ""; Page.result := None; Page.error := None;
          Page.isLoading := false; Page.copied := false |})
  = Some "url is required".
Proof.
  destruct (proj2 (page_shows_reply (fun _ => "") (fun _ => "")
                     (Sample.world None Sample.no_fault
                        (inl (ErrorObj "unused")))
                     {| Page.url := ""; Page.result := None;
                        Page.error := None; Page.isLoading := false;
                        Page.copied := false |}
                     initial (error_reply 400 "url is required")
                     {| status := 400;
                        text := inr "";
                        json := inr (VObj [("error", VStr "url is required")]) |}
                     eq_refl eq_refl eq_refl))
    as (message & E & _ & H).
  - discriminate.
  - injection E as <-. exact H.
Defined.
